(** * Lunar telemetry simulator: frame encoder, telemetry model and driver loop

    A shallow embedding of [simulator/lunar_simulator.py].

    - Python [int] is [Z]; [bytes] is [list byte]; [bool] is [bool].
    - Python [float] is idealised as a real number ([R]) in the telemetry
      model and in the driver loop: rounding, infinities and NaN are not
      modelled there.  [int(x)] truncates toward zero.  The state update of
      the loop is embedded a second time in the program's own arithmetic,
      IEEE 754 binary64 (module [Double]), where rounding matters.
    - [struct.pack] is embedded for the standard-size little-endian mode
      (prefix [<]) and the format codes the simulator uses; without a prefix
      only one-byte codes are accepted, as in the frame header.
    - The [random] module is an explicit source of draws threaded through
      the model; the socket, the clock and the console are explicit state. *)

From Stdlib Require Import ZArith List String Ascii Strings.Byte Bool Lia.
From Stdlib Require Import Reals Lra.
From Stdlib Require Import QArith Floats.
Import ListNotations.

Local Open Scope Z_scope.

(** Decimal float literals stand for the nearest double, as in Python. *)
Set Warnings "-inexact-float".

(** ** Exceptions and fallible results *)

Inductive exn : Type :=
| StructError          (* struct.error *)
| OSError              (* socket failure *)
| ZeroDivisionError
| KeyboardInterrupt.

Inductive result (A : Type) : Type :=
| Ok (a : A)
| Raise (e : exn).

Arguments Ok {A} a.
Arguments Raise {A} e.

Definition bytes := list byte.

(** ** Python's [struct] module, little-endian standard mode *)

Module Struct.

(** The values the simulator passes to [struct.pack]. *)
Inductive pyval : Type :=
| PyInt (z : Z)
| PyBool (b : bool).

(** Format codes: [h] i16, [H] u16, [i] i32, [I] u32, [B] u8, [?] bool. *)
Inductive code : Type := c_h | c_H | c_i | c_I | c_B | c_bool.

Definition code_of_ascii (a : ascii) : option code :=
  match a with
  | "h"%char => Some c_h
  | "H"%char => Some c_H
  | "i"%char => Some c_i
  | "I"%char => Some c_I
  | "B"%char => Some c_B
  | "?"%char => Some c_bool
  | _ => None
  end.

Definition digit_of_ascii (a : ascii) : option nat :=
  let n := nat_of_ascii a in
  if andb (Nat.leb 48 n) (Nat.leb n 57) then Some (n - 48)%nat else None.

Definition is_space (a : ascii) : bool :=
  match a with
  | " "%char => true
  | _ => false
  end.

(** Scan the body of a format string.  [cnt] is the repeat count read so
    far for the next code, if any. *)
Fixpoint parse_items (s : string) (cnt : option nat) : option (list code) :=
  match s with
  | EmptyString =>
      match cnt with
      | None => Some []
      | Some _ => None       (* repeat count expected a format code *)
      end
  | String a rest =>
      match digit_of_ascii a with
      | Some d =>
          let c := match cnt with None => d | Some c => (10 * c + d)%nat end in
          parse_items rest (Some c)
      | None =>
          if is_space a then
            match cnt with
            | None => parse_items rest None
            | Some _ => None
            end
          else
            match code_of_ascii a with
            | Some c =>
                let k := match cnt with None => 1%nat | Some k => k end in
                match parse_items rest None with
                | Some cs => Some (repeat c k ++ cs)
                | None => None
                end
            | None => None
            end
      end
  end.

Definition size_of (c : code) : nat :=
  match c with
  | c_h | c_H => 2
  | c_i | c_I => 4
  | c_B | c_bool => 1
  end%nat.

(** With the [<] prefix: little-endian, standard sizes, no padding.
    Without a prefix the native layout applies; it is embedded only for
    formats made of one-byte codes, where it coincides with the standard
    one (no alignment, no byte order). *)
Definition parse_format (fmt : string) : option (list code) :=
  match fmt with
  | String "<"%char body => parse_items body None
  | _ =>
      match parse_items fmt None with
      | Some cs =>
          if forallb (fun c => Nat.eqb (size_of c) 1) cs then Some cs else None
      | None => None
      end
  end.

(** Inclusive range accepted by an integer code. *)
Definition range_of (c : code) : Z * Z :=
  match c with
  | c_h => (-32768, 32767)
  | c_H => (0, 65535)
  | c_i => (-2147483648, 2147483647)
  | c_I => (0, 4294967295)
  | c_B => (0, 255)
  | c_bool => (0, 1)
  end.

Definition byte_of_Z (z : Z) : byte :=
  match Byte.of_N (Z.to_N z) with
  | Some b => b
  | None => x00
  end.

(** [n] bytes of [z], least significant first (two's complement for
    negative [z]). *)
Fixpoint le_bytes (n : nat) (z : Z) : bytes :=
  match n with
  | O => []
  | S k => byte_of_Z (Z.land z 255) :: le_bytes k (Z.shiftr z 8)
  end.

(** [bool] is a subclass of [int]. *)
Definition as_int (v : pyval) : Z :=
  match v with
  | PyInt z => z
  | PyBool b => Z.b2z b
  end.

Definition truthy (v : pyval) : bool :=
  match v with
  | PyInt z => negb (z =? 0)
  | PyBool b => b
  end.

Definition fits (c : code) (v : pyval) : bool :=
  match c with
  | c_bool => true
  | _ => let '(lo, hi) := range_of c in
         andb (lo <=? as_int v) (as_int v <=? hi)
  end.

Definition pack_one (c : code) (v : pyval) : result bytes :=
  match c with
  | c_bool => Ok [if truthy v then x01 else x00]
  | _ => if fits c v then Ok (le_bytes (size_of c) (as_int v))
         else Raise StructError
  end.

Fixpoint pack_values (cs : list code) (vs : list pyval) : result bytes :=
  match cs, vs with
  | [], [] => Ok []
  | c :: cs', v :: vs' =>
      match pack_one c v with
      | Ok b =>
          match pack_values cs' vs' with
          | Ok r => Ok (b ++ r)
          | Raise e => Raise e
          end
      | Raise e => Raise e
      end
  | _, _ => Raise StructError     (* wrong number of arguments *)
  end.

Definition pack (fmt : string) (vs : list pyval) : result bytes :=
  match parse_format fmt with
  | Some cs => pack_values cs vs
  | None => Raise StructError
  end.

Definition calcsize (cs : list code) : nat :=
  fold_right (fun c n => (size_of c + n)%nat) 0%nat cs.

(** The bytes a value occupies once accepted. *)
Definition encode_one (c : code) (v : pyval) : bytes :=
  match c with
  | c_bool => [if truthy v then x01 else x00]
  | _ => le_bytes (size_of c) (as_int v)
  end.

(** Same number of values as codes, each accepted by its code. *)
Fixpoint all_fit (cs : list code) (vs : list pyval) : bool :=
  match cs, vs with
  | [], [] => true
  | c :: cs', v :: vs' => fits c v && all_fit cs' vs'
  | _, _ => false
  end.

Fixpoint encode_all (cs : list code) (vs : list pyval) : bytes :=
  match cs, vs with
  | c :: cs', v :: vs' => encode_one c v ++ encode_all cs' vs'
  | _, _ => []
  end.

End Struct.

(** ** Frame constants *)

Definition FRAME_START_SYMBOL : Z := 0x12.
Definition TELEMETRY_FRAME : Z := 0x06.
Definition TELEMETRY_FRAME_PAYLOAD_SIZE : nat := 63.

(** ** The telemetry sample

    The dictionary returned by [_generate_telemetry]; its keys are fixed, so
    it is a record with one field per key. *)

Record TelemetrySample : Type := mkSample {
  icm_gyr_x : Z;  icm_gyr_y : Z;  icm_gyr_z : Z;
  icm_acc_x : Z;  icm_acc_y : Z;  icm_acc_z : Z;
  icm_temp : Z;
  mmc_mag_x : Z;  mmc_mag_y : Z;  mmc_mag_z : Z;
  mmc_temp : Z;
  rdn_serial_dose : Z;  rdn_sen1_dose : Z;  rdn_sen2_dose : Z;
  rdn_serial_intensity : Z;  rdn_sen1_intensity : Z;  rdn_sen2_intensity : Z;
  rdn_temp : Z;  rdn_vdd : Z;
  rdn_crystal_ok : bool;  rdn_analog_ok : bool;
  encoder_sensor : Z;  hall_endstop : Z;  reflective_endstop : Z;
  light_sensor : Z
}.

Definition TELEMETRY_FORMAT : string := "<3h 3h h 3i h 6I 2h 2? 3B H".

Definition telemetry_args (data : TelemetrySample) : list Struct.pyval :=
  let int := Struct.PyInt in
  [ int (icm_gyr_x data); int (icm_gyr_y data); int (icm_gyr_z data);
    int (icm_acc_x data); int (icm_acc_y data); int (icm_acc_z data);
    int (icm_temp data);
    int (mmc_mag_x data); int (mmc_mag_y data); int (mmc_mag_z data);
    int (mmc_temp data);
    int (rdn_serial_dose data); int (rdn_sen1_dose data); int (rdn_sen2_dose data);
    int (rdn_serial_intensity data); int (rdn_sen1_intensity data);
    int (rdn_sen2_intensity data);
    int (rdn_temp data); int (rdn_vdd data);
    Struct.PyBool (rdn_crystal_ok data); Struct.PyBool (rdn_analog_ok data);
    int (encoder_sensor data); int (hall_endstop data);
    int (reflective_endstop data);
    int (light_sensor data) ].

(** The codes [TELEMETRY_FORMAT] denotes. *)
Definition telemetry_codes : list Struct.code :=
  let h := Struct.c_h in
  let i := Struct.c_i in
  let I := Struct.c_I in
  let B := Struct.c_B in
  [h; h; h; h; h; h; h; i; i; i; h; I; I; I; I; I; I; h; h;
   Struct.c_bool; Struct.c_bool; B; B; B; Struct.c_H].

(** Every field accepted by its format code. *)
Definition sample_fits (d : TelemetrySample) : bool :=
  Struct.all_fit telemetry_codes (telemetry_args d).

(** The payload of a sample whose fields are all accepted. *)
Definition payload_of (d : TelemetrySample) : bytes :=
  Struct.encode_all telemetry_codes (telemetry_args d).

(** Console output of the simulator. *)
Inductive message : Type :=
| MsgStarted
| MsgStopping
| MsgStopped
| MsgPackError
| MsgSendError
| MsgStatus (hours minutes seconds : Z) (orbit thermal : R).

(** [_pack_telemetry]: the payload, or [None] after printing the packing
    error.  The second component is what was printed. *)
Definition _pack_telemetry (data : TelemetrySample) : option bytes * list message :=
  match Struct.pack TELEMETRY_FORMAT (telemetry_args data) with
  | Ok packed => (Some packed, [])
  | Raise _ => (None, [MsgPackError])
  end.

(** ** Floating-point helpers (idealised over the reals) *)

Module Num.
Local Open Scope R_scope.

(** [int(x)]: truncation toward zero. *)
Definition int (x : R) : Z :=
  if Rle_dec 0 x then Zfloor x else Zceil x.

(** [x > y] as a Python boolean. *)
Definition gt (x y : R) : bool :=
  if Rlt_dec y x then true else false.

(** [x // y] and [x % y] on floats. *)
Definition floordiv (x y : R) : R := IZR (Zfloor (x / y)).
Definition fmod (x y : R) : R := x - y * IZR (Zfloor (x / y)).
End Num.

(** ** The [random] module

    The generator is an explicit source: a stream of standard-normal draws
    consumed by [gauss] and a stream of unit-interval draws consumed by
    [random]; each call advances the corresponding cursor. *)

Module Random.
Local Open Scope R_scope.

Record state : Type := mkState {
  normal_draws : nat -> R;
  unit_draws : nat -> R;
  normal_pos : nat;
  unit_pos : nat
}.

Definition Rand (A : Type) : Type := state -> A * state.

Definition ret {A} (a : A) : Rand A := fun s => (a, s).

Definition bind {A B} (m : Rand A) (k : A -> Rand B) : Rand B :=
  fun s => let '(a, s') := m s in k a s'.

(** [random.random()]: the next unit-interval draw. *)
Definition random : Rand R :=
  fun s => (unit_draws s (unit_pos s),
            mkState (normal_draws s) (unit_draws s) (normal_pos s) (S (unit_pos s))).

(** [random.gauss(mu, sigma)]: [mu + z * sigma] for the next normal draw. *)
Definition gauss (mu sigma : R) : Rand R :=
  fun s => (mu + normal_draws s (normal_pos s) * sigma,
            mkState (normal_draws s) (unit_draws s) (S (normal_pos s)) (unit_pos s)).

(** [random.uniform(a, b)]: [a + (b - a) * random()]. *)
Definition uniform (a b : R) : Rand R :=
  bind random (fun u => ret (a + (b - a) * u)).

(** The [k]-th normal / unit draw still to come. *)
Definition next_normal (s : state) (k : nat) : R := normal_draws s (k + normal_pos s).
Definition next_unit (s : state) (k : nat) : R := unit_draws s (k + unit_pos s).
End Random.

Notation "x <- m ;; k" := (Random.bind m (fun x => k))
  (at level 61, m at next level, right associativity).

(** ** The simulator object *)

Record Baseline : Type := mkBaseline {
  gyro_noise : R;
  accel_noise : R;
  mag_noise : R;
  temp_variation : R;
  radiation_base : R;
  radiation_variation : R
}.

Inductive sock_state : Type := SockOpen | SockClosed.

Record Simulator : Type := mkSim {
  host : string;
  port : Z;
  rate : R;
  running : bool;
  socket : option sock_state;
  mission_time : R;
  baseline : Baseline;
  orbit_phase : R;
  thermal_cycle : R
}.

Definition DEFAULT_HOST : string := "127.0.0.1".
Definition DEFAULT_PORT : Z := 10015.
Definition DEFAULT_RATE : R := 1.0%R.

(** [LunarTelemetrySimulator.__init__]. *)
Definition init (host : string) (port : Z) (rate : R) : Simulator :=
  mkSim host port rate false None 0.0%R
        (mkBaseline 0.1 0.05 5.0 2.0 1000 50)%R
        0.0%R 0.0%R.

(** The scenario adjustment made by [main] before [start]. *)
Inductive scenario : Type := nominal | anomaly | eclipse.

Definition with_baseline (self : Simulator) (b : Baseline) : Simulator :=
  mkSim (host self) (port self) (rate self) (running self) (socket self)
        (mission_time self) b (orbit_phase self) (thermal_cycle self).

Definition apply_scenario (sc : scenario) (self : Simulator) : Simulator :=
  let b := baseline self in
  match sc with
  | nominal => self
  | anomaly =>
      with_baseline self
        (mkBaseline (gyro_noise b * 3) (accel_noise b) (mag_noise b)
                    (temp_variation b) (radiation_base b)
                    (radiation_variation b * 2))%R
  | eclipse =>
      with_baseline self
        (mkBaseline (gyro_noise b) (accel_noise b) (mag_noise b)
                    (temp_variation b * 2) (radiation_base b)
                    (radiation_variation b))%R
  end.

(** The object [main] builds and hands to [start]. *)
Definition main (host : string) (port : Z) (rate : R) (sc : scenario) : Simulator :=
  apply_scenario sc (init host port rate).

(** ** The telemetry model *)

Section Model.
Local Open Scope R_scope.
Import Random.

(** The radiation-belt factor of [_generate_telemetry]. *)
Definition radiation_multiplier (self : Simulator) : R :=
  1.0 + 0.3 * sin (orbit_phase self * 2).

Definition _generate_telemetry (self : Simulator) : Rand TelemetrySample :=
  let b := baseline self in
  let int := Num.int in
  g <- gauss 0 (gyro_noise b) ;;
  let gyro_x := int (sin (orbit_phase self) * 10 + g * 100) in
  g <- gauss 0 (gyro_noise b) ;;
  let gyro_y := int (cos (orbit_phase self) * 8 + g * 100) in
  g <- gauss 0 (gyro_noise b) ;;
  let gyro_z := int (g * 100) in
  g <- gauss 0 (accel_noise b) ;;
  let accel_x := int (g * 1000) in
  g <- gauss 0 (accel_noise b) ;;
  let accel_y := int (g * 1000) in
  g <- gauss 0.001 (accel_noise b) ;;
  let accel_z := int (g * 1000) in
  g <- gauss 0 (temp_variation b) ;;
  let imu_temp := int (-10 + 15 * sin (thermal_cycle self) + g * 10) in
  let mag_x := int (-25000 + 5000 * sin (orbit_phase self)) in
  let mag_y := int (15000 + 3000 * cos (orbit_phase self)) in
  let mag_z := int (45000 + 2000 * sin (orbit_phase self * 0.7)) in
  g <- gauss 0 (temp_variation b) ;;
  let mag_temp := int (-5 + 10 * sin (thermal_cycle self + 0.5) + g * 10) in
  let radiation_multiplier := radiation_multiplier self in
  g <- gauss 0 (radiation_variation b) ;;
  let rdn_serial_dose := int (radiation_base b * radiation_multiplier + g) in
  g <- gauss 0 (radiation_variation b) ;;
  let rdn_sen1_dose := int (radiation_base b * radiation_multiplier * 0.9 + g) in
  g <- gauss 0 (radiation_variation b) ;;
  let rdn_sen2_dose := int (radiation_base b * radiation_multiplier * 1.1 + g) in
  let rdn_serial_intensity := int (100 + 20 * sin (orbit_phase self * 3)) in
  let rdn_sen1_intensity := int (95 + 18 * sin (orbit_phase self * 3 + 0.2)) in
  let rdn_sen2_intensity := int (105 + 22 * sin (orbit_phase self * 3 + 0.4)) in
  g <- gauss 0 1 ;;
  let rdn_temp := int (20 + 5 * sin (thermal_cycle self + 1.0) + g * 10) in
  g <- gauss 0 10 ;;
  let rdn_vdd := int (3300 + g) in
  u <- random ;;
  let rdn_crystal_ok := Num.gt u 0.01 in
  u <- random ;;
  let rdn_analog_ok := Num.gt u 0.005 in
  u <- uniform 0 255 ;;
  let encoder_sensor := int u in
  u <- random ;;
  let hall_endstop := if Num.gt u 0.9 then 1%Z else 0%Z in
  u <- random ;;
  let reflective_endstop := if Num.gt u 0.95 then 1%Z else 0%Z in
  g <- gauss 0 50 ;;
  let light_sensor := int (1000 + 500 * sin (orbit_phase self) + g) in
  ret (mkSample gyro_x gyro_y gyro_z accel_x accel_y accel_z imu_temp
                mag_x mag_y mag_z mag_temp
                rdn_serial_dose rdn_sen1_dose rdn_sen2_dose
                rdn_serial_intensity rdn_sen1_intensity rdn_sen2_intensity
                rdn_temp rdn_vdd rdn_crystal_ok rdn_analog_ok
                encoder_sensor hall_endstop reflective_endstop light_sensor).

End Model.

(** ** Transmission *)

Definition datagram : Type := bytes * (string * Z).

(** What a call did to the outside world: datagrams handed to the network,
    lines printed, and the exception it raised, if any. *)
Record effects : Type := mkEffects {
  sent : list datagram;
  printed : list message;
  raised : option exn
}.

(** [socket.sendto]: fails on a missing or closed socket, and whenever the
    network refuses the datagram ([net_ok = false]). *)
Definition sendto (sock : option sock_state) (net_ok : bool)
           (frame : bytes) (dest : string * Z) : result (list datagram) :=
  match sock with
  | Some SockOpen => if net_ok then Ok [(frame, dest)] else Raise OSError
  | Some SockClosed => Raise OSError
  | None => Raise OSError
  end.

(** [_send_telemetry]. *)
Definition _send_telemetry (self : Simulator) (net_ok : bool)
           (data : TelemetrySample) : effects :=
  let '(packed_data, log) := _pack_telemetry data in
  match packed_data with
  | None => mkEffects [] log None
  | Some [] => mkEffects [] log None
  | Some payload =>
      match Struct.pack "BB" [Struct.PyInt FRAME_START_SYMBOL;
                              Struct.PyInt TELEMETRY_FRAME] with
      | Raise e => mkEffects [] log (Some e)
      | Ok header =>
          let frame := header ++ payload in
          match sendto (socket self) net_ok frame (host self, port self) with
          | Ok out => mkEffects out log None
          | Raise _ => mkEffects [] (log ++ [MsgSendError]) None
          end
      end
  end.

(** ** The driver *)

(** [_print_status].  For a mission time that is not negative the real
    quotients and remainders are the ones Python's [//] and [%] compute on
    the double (both are exact there below 2^53); for a negative one
    Python's [%] can round up to the divisor itself, which the reals do not
    show. *)
Definition _print_status (self : Simulator) : message :=
  let t := mission_time self in
  MsgStatus (Num.int (Num.floordiv t 3600))
            (Num.int (Num.floordiv (Num.fmod t 3600) 60))
            (Num.int (Num.fmod t 60))
            (orbit_phase self) (thermal_cycle self).

(** [stop]: clears [running] and closes the socket if there is one. *)
Definition stop (self : Simulator) : Simulator * list message :=
  (mkSim (host self) (port self) (rate self) false
         (match socket self with
          | Some _ => Some SockClosed
          | None => None
          end)
         (mission_time self) (baseline self)
         (orbit_phase self) (thermal_cycle self),
   [MsgStopped]).

(** Lines 84-87 of [_simulation_loop]: the three assignments of the state
    update, and the update itself, which divides by [rate].  The sums are
    taken over the reals here; the same lines in the program's own
    arithmetic are [Double.update_state] below. *)
Definition advanced (self : Simulator) : Simulator :=
  mkSim (host self) (port self) (rate self) (running self) (socket self)
        (mission_time self + 1.0 / rate self)%R
        (baseline self)
        (orbit_phase self + 0.01)%R
        (thermal_cycle self + 0.05)%R.

Definition update_state (self : Simulator) : result Simulator :=
  if Req_dec_T (rate self) 0 then Raise ZeroDivisionError
  else Ok (advanced self).

(** Lines 92-94: the time to sleep, given the tick's start and the clock. *)
Definition sleep_time (self : Simulator) (start_time now : R) : result R :=
  let elapsed := (now - start_time)%R in
  if Req_dec_T (rate self) 0 then Raise ZeroDivisionError
  else Ok (Rmax 0 (1.0 / rate self - elapsed))%R.

(** ** The state update in the program's own arithmetic

    Python's [float] is IEEE 754 binary64: every [+] and [/] below rounds
    its exact result to the nearest double.  The object is the one
    [__init__] builds, its float attributes held as doubles (the two integer
    entries of the baseline as the doubles equal to them). *)

Module Double.
Local Open Scope float_scope.

Record Baseline : Type := mkBaseline {
  gyro_noise : float;
  accel_noise : float;
  mag_noise : float;
  temp_variation : float;
  radiation_base : float;
  radiation_variation : float
}.

Record Simulator : Type := mkSim {
  host : string;
  port : Z;
  rate : float;
  running : bool;
  socket : option sock_state;
  mission_time : float;
  baseline : Baseline;
  orbit_phase : float;
  thermal_cycle : float
}.

(** [LunarTelemetrySimulator.__init__]. *)
Definition init (host : string) (port : Z) (rate : float) : Simulator :=
  mkSim host port rate false None 0.0
        (mkBaseline 0.1 0.05 5.0 2.0 1000 50)
        0.0 0.0.

(** Lines 84-87.  [1.0 / self.rate] raises [ZeroDivisionError] when the
    rate compares equal to zero (either sign), before anything is
    assigned. *)
Definition update_state (self : Simulator) : result Simulator :=
  if (rate self =? 0) then Raise ZeroDivisionError
  else Ok (mkSim (host self) (port self) (rate self) (running self) (socket self)
                 (mission_time self + 1.0 / rate self)
                 (baseline self)
                 (orbit_phase self + 0.01)
                 (thermal_cycle self + 0.05)).

(** The state update of [n] consecutive ticks. *)
Fixpoint ticks (n : nat) (self : Simulator) : result Simulator :=
  match n with
  | O => Ok self
  | S k =>
      match update_state self with
      | Ok self' => ticks k self'
      | Raise e => Raise e
      end
  end.

(** The number a finite double stands for; [None] for infinities and NaN. *)
Definition exact (x : float) : option Q :=
  match Prim2SF x with
  | S754_zero _ => Some 0%Q
  | S754_finite s m e =>
      let v := (inject_Z (Z.pos m) *
                (if (0 <=? e)%Z then inject_Z (2 ^ e)
                 else / inject_Z (2 ^ (- e))))%Q in
      Some (if s then Qopp v else v)
  | S754_infinity _ => None
  | S754_nan => None
  end.

(** By how much [x'] exceeds [x], as numbers. *)
Definition increase (x x' : float) : option Q :=
  match exact x, exact x' with
  | Some q, Some q' => Some (Qred (q' - q))
  | _, _ => None
  end.

(** [x'] exceeds [x] by the number [c], no more and no less. *)
Definition increases_by (x x' : float) (c : Q) : bool :=
  match increase x x' with
  | Some d => Qeq_bool d c
  | None => false
  end.
End Double.

(** Control points of [start] and [_simulation_loop].  The loop's locals
    ([start_time], [telemetry_data]) travel with the control point. *)
Inductive pc : Type :=
| AtStart                                          (* start, lines 52-59 *)
| AtWhile                                          (* line 77 *)
| AtStartTime                                      (* line 78 *)
| AtGenerate (start_time : R)                      (* line 81 *)
| AtSend (start_time : R) (data : TelemetrySample) (* line 82 *)
| AtUpdate (start_time : R)                        (* lines 85-87 *)
| AtStatus (start_time : R)                        (* line 90 *)
| AtSleep (start_time : R)                         (* lines 93-95 *)
| AtExcept                                         (* start, line 64 *)
| AtFinally (pending : option exn)                 (* start, line 66 *)
| Returned
| Propagated (e : exn).




(** Inside [_simulation_loop]. *)
Definition in_loop (p : pc) : bool :=
  match p with
  | AtWhile | AtStartTime | AtGenerate _ | AtSend _ _
  | AtUpdate _ | AtStatus _ | AtSleep _ => true
  | _ => false
  end.

(** After the tick's send and before its sleep has completed. *)
Definition after_send (p : pc) : bool :=
  match p with
  | AtUpdate _ | AtStatus _ | AtSleep _ => true
  | _ => false
  end.

Definition terminal (p : pc) : bool :=
  match p with
  | Returned | Propagated _ => true
  | _ => false
  end.

(** The whole system: the simulator object, the random source, the clock,
    what has gone out on the network and on the console, and the control
    point. *)
Record Machine : Type := mkMachine {
  sim : Simulator;
  rng : Random.state;
  now : R;
  wire : list datagram;
  console : list message;
  ctl : pc
}.

(** A stop request: Ctrl+C (a [KeyboardInterrupt] raised in the loop) or a
    call of [stop] by another party. *)
Inductive stop_request : Type := CtrlC | StopCall.

(** What the environment contributes to one step: the wall-clock time the
    step takes, whether the network accepts a datagram, and a stop request
    arriving at this point, if any. *)
Record step_input : Type := mkInput {
  dt : R;
  net_ok : bool;
  stop_req : option stop_request
}.

Definition quiet (i : step_input) : Prop := stop_req i = None.

(** Where an exception raised inside [_simulation_loop] goes: the
    [except KeyboardInterrupt] clause, or straight to [finally]. *)
Definition unwind (e : exn) : pc :=
  match e with
  | KeyboardInterrupt => AtExcept
  | _ => AtFinally (Some e)
  end.

(** One statement of the program.  At [AtSleep] the call [time.sleep(d)]
    is taken to return after exactly [d] seconds.  The real call may return
    later, and it raises [OverflowError] when [d] does not fit a 64-bit count
    of nanoseconds ([d] above [SLEEP_MAX], below); that failure is not a
    transition of this machine, so statements about the sleep are made for
    requests the call accepts ([sleep_accepted]). *)
Definition exec (i : step_input) (m : Machine) : Machine :=
  let self := sim m in
  let t := (now m + dt i)%R in
  match ctl m with
  | AtStart =>
      mkMachine (mkSim (host self) (port self) (rate self) true (Some SockOpen)
                       (mission_time self) (baseline self)
                       (orbit_phase self) (thermal_cycle self))
                (rng m) t (wire m) (console m ++ [MsgStarted]) AtWhile
  | AtWhile =>
      mkMachine self (rng m) t (wire m) (console m)
                (if running self then AtStartTime else AtFinally None)
  | AtStartTime =>
      mkMachine self (rng m) t (wire m) (console m) (AtGenerate (now m))
  | AtGenerate st =>
      let '(data, rng') := _generate_telemetry self (rng m) in
      mkMachine self rng' t (wire m) (console m) (AtSend st data)
  | AtSend st data =>
      let eff := _send_telemetry self (net_ok i) data in
      mkMachine self (rng m) t (wire m ++ sent eff) (console m ++ printed eff)
                (match raised eff with
                 | None => AtUpdate st
                 | Some e => unwind e
                 end)
  | AtUpdate st =>
      match update_state self with
      | Ok self' => mkMachine self' (rng m) t (wire m) (console m) (AtStatus st)
      | Raise e => mkMachine self (rng m) t (wire m) (console m) (unwind e)
      end
  | AtStatus st =>
      mkMachine self (rng m) t (wire m) (console m ++ [_print_status self])
                (AtSleep st)
  | AtSleep st =>
      match sleep_time self st t with
      | Ok d => mkMachine self (rng m) (t + d)%R (wire m) (console m) AtWhile
      | Raise e => mkMachine self (rng m) t (wire m) (console m) (unwind e)
      end
  | AtExcept =>
      mkMachine self (rng m) t (wire m) (console m ++ [MsgStopping])
                (AtFinally None)
  | AtFinally pending =>
      let '(self', out) := stop self in
      mkMachine self' (rng m) t (wire m) (console m ++ out)
                (match pending with
                 | None => Returned
                 | Some e => Propagated e
                 end)
  | Returned => m
  | Propagated _ => m
  end.

(** One step of the system.  A Ctrl+C arriving while the loop runs raises
    [KeyboardInterrupt] at the current statement; one arriving in [start]
    before the [try] propagates.  A [stop] call by another party runs [stop]
    and leaves the control point where it is.  A Ctrl+C arriving once
    shutdown has begun is not modelled: the step proceeds. *)
Definition step (i : step_input) (m : Machine) : Machine :=
  match stop_req i with
  | Some CtrlC =>
      if in_loop (ctl m) then
        mkMachine (sim m) (rng m) (now m + dt i)%R (wire m) (console m)
                  (unwind KeyboardInterrupt)
      else match ctl m with
           | AtStart =>
               mkMachine (sim m) (rng m) (now m + dt i)%R (wire m) (console m)
                         (Propagated KeyboardInterrupt)
           | _ => exec i m
           end
  | Some StopCall =>
      let '(self', out) := stop (sim m) in
      mkMachine self' (rng m) (now m + dt i)%R (wire m) (console m ++ out) (ctl m)
  | None => exec i m
  end.

Fixpoint run (inputs : list step_input) (m : Machine) : Machine :=
  match inputs with
  | [] => m
  | i :: rest => run rest (step i m)
  end.

(** ** What [time.sleep] accepts

    [time.sleep] refuses a negative duration ([ValueError]) and one beyond
    2^63 - 1 nanoseconds ([OverflowError]). *)

Definition SLEEP_MAX : R := 9223372036%R.

Definition sleep_accepted (d : R) : Prop := (0 <= d <= SLEEP_MAX)%R.

(** Rates for which the update divides and whose period, of either sign, is
    a duration [time.sleep] accepts. *)
Definition rate_accepted (self : Simulator) : Prop :=
  rate self <> 0%R /\ (Rabs (1.0 / rate self) <= SLEEP_MAX)%R.

(** The wall clock does not run backwards during the step. *)
Definition forward (i : step_input) : Prop := (0 <= dt i)%R.

(** The clock snapshot of the tick under way is not ahead of the clock. *)
Definition clock_ok (m : Machine) : Prop :=
  match ctl m with
  | AtGenerate st | AtSend st _ | AtUpdate st | AtStatus st | AtSleep st =>
      (st <= now m)%R
  | _ => True
  end.

(** The duration handed to [time.sleep] by the step, if the step is the
    sleep statement. *)
Definition sleep_request (i : step_input) (m : Machine) : option R :=
  match stop_req i, ctl m with
  | None, AtSleep st =>
      match sleep_time (sim m) st (now m + dt i)%R with
      | Ok d => Some d
      | Raise _ => None
      end
  | _, _ => None
  end.

(** The durations handed to [time.sleep] along a run, in order. *)
Fixpoint sleeps (inputs : list step_input) (m : Machine) : list R :=
  match inputs with
  | [] => []
  | i :: rest =>
      match sleep_request i m with
      | Some d => d :: sleeps rest (step i m)
      | None => sleeps rest (step i m)
      end
  end.

(** The machine about to execute [simulator.start()]. *)
Definition boot (self : Simulator) (r : Random.state) : Machine :=
  mkMachine self r 0%R [] [] AtStart.

(** [start], run against the environment [inputs]. *)
Definition start (self : Simulator) (r : Random.state)
           (inputs : list step_input) : Machine :=
  run inputs (boot self r).


(** ** The wire format as the receiver reads it *)

Inductive wire_type : Type := U8 | I16 | U16 | I32 | U32 | FlagU8.

Definition width (ty : wire_type) : nat :=
  match ty with
  | U8 | FlagU8 => 1
  | I16 | U16 => 2
  | I32 | U32 => 4
  end%nat.

Definition slice (off n : nat) (l : bytes) : bytes := firstn n (skipn off l).

Fixpoint le_unsigned (bs : bytes) : Z :=
  match bs with
  | [] => 0
  | b :: rest => Z.of_N (Byte.to_N b) + 256 * le_unsigned rest
  end.

Definition le_signed (bs : bytes) : Z :=
  let u := le_unsigned bs in
  let w := 8 * Z.of_nat (List.length bs) in
  if u <? 2 ^ (w - 1) then u else u - 2 ^ w.

Definition read_field (frame : bytes) (off : nat) (ty : wire_type) : Z :=
  let raw := slice off (width ty) frame in
  match ty with
  | I16 | I32 => le_signed raw
  | U8 | U16 | U32 | FlagU8 => le_unsigned raw
  end.

(** The layout table of the wire format: offset in the frame, type, field. *)
Definition wire_table : list (nat * wire_type * (TelemetrySample -> Z)) :=
  [ (2, I16, icm_gyr_x); (4, I16, icm_gyr_y); (6, I16, icm_gyr_z);
    (8, I16, icm_acc_x); (10, I16, icm_acc_y); (12, I16, icm_acc_z);
    (14, I16, icm_temp);
    (16, I32, mmc_mag_x); (20, I32, mmc_mag_y); (24, I32, mmc_mag_z);
    (28, I16, mmc_temp);
    (30, U32, rdn_serial_dose); (34, U32, rdn_sen1_dose); (38, U32, rdn_sen2_dose);
    (42, U32, rdn_serial_intensity); (46, U32, rdn_sen1_intensity);
    (50, U32, rdn_sen2_intensity);
    (54, I16, rdn_temp); (56, I16, rdn_vdd);
    (58, FlagU8, fun d => Z.b2z (rdn_crystal_ok d));
    (59, FlagU8, fun d => Z.b2z (rdn_analog_ok d));
    (60, U8, encoder_sensor); (61, U8, hall_endstop); (62, U8, reflective_endstop);
    (63, U16, light_sensor) ]%nat.

Definition in_i16 (z : Z) : Prop := -32768 <= z <= 32767.
Definition in_i32 (z : Z) : Prop := -2147483648 <= z <= 2147483647.
Definition in_u32 (z : Z) : Prop := 0 <= z <= 4294967295.
Definition in_u16 (z : Z) : Prop := 0 <= z <= 65535.
Definition in_u8 (z : Z) : Prop := 0 <= z <= 255.

(** The declared range of a wire type. *)
Definition in_type (ty : wire_type) (z : Z) : Prop :=
  match ty with
  | U8 => in_u8 z
  | I16 => in_i16 z
  | U16 => in_u16 z
  | I32 => in_i32 z
  | U32 => in_u32 z
  | FlagU8 => 0 <= z <= 1
  end.

(** Every field of the sample within the range of its column in the table. *)
Definition declared_ranges (d : TelemetrySample) : Prop :=
  Forall (fun row => let '(_, ty, get) := row in in_type ty (get d)) wire_table.

Definition in_type_b (ty : wire_type) (z : Z) : bool :=
  match ty with
  | U8 => (0 <=? z) && (z <=? 255)
  | I16 => (-32768 <=? z) && (z <=? 32767)
  | U16 => (0 <=? z) && (z <=? 65535)
  | I32 => (-2147483648 <=? z) && (z <=? 2147483647)
  | U32 => (0 <=? z) && (z <=? 4294967295)
  | FlagU8 => (0 <=? z) && (z <=? 1)
  end.

Definition declared_ranges_b (d : TelemetrySample) : bool :=
  forallb (fun row => let '(_, ty, get) := row in in_type_b ty (get d)) wire_table.

(** ** Properties stated in the design notes *)

(** A channel is scaled by the belt factor: its value is the baseline
    radiation level times the factor times a per-sensor constant, plus noise
    that does not depend on the orbital position. *)
Definition scaled_by_belt (chan : TelemetrySample -> Z) : Prop :=
  exists (k : R) (noise : Baseline -> Random.state -> R),
    forall (self : Simulator) (r : Random.state),
      chan (fst (_generate_telemetry self r)) =
      Num.int (radiation_base (baseline self) * radiation_multiplier self * k
               + noise (baseline self) r)%R.



(** Every numeric field accepted by its format code (the flags are packed
    by truth value and accept anything). *)
Definition within_format (d : TelemetrySample) : Prop :=
  Forall (fun row => let '(_, ty, get) := row in
                     match ty with
                     | FlagU8 => True
                     | _ => in_type ty (get d)
                     end) wire_table.

(** How a tick can lose its frame, and the line it prints. *)
Inductive frame_failure (self : Simulator) (ok : bool) (d : TelemetrySample)
  : message -> Prop :=
| EncodingFailure :
    fst (_pack_telemetry d) = None ->
    frame_failure self ok d MsgPackError
| TransmissionFailure (payload : bytes) (e : exn) :
    fst (_pack_telemetry d) = Some payload ->
    sendto (socket self) ok ([x12; x06] ++ payload) (host self, port self) = Raise e ->
    frame_failure self ok d MsgSendError.

(** Random outcomes whose normal draws stay within [K] standard deviations
    and whose unit draws lie in the unit interval, for the draws one call of
    the model consumes.  [random.gauss] computes its deviate as
    [cos(2 pi x) * sqrt(-2 ln(1 - y))] from two 53-bit uniform variates, so
    it never exceeds [sqrt(106 ln 2) < 8.58] in magnitude. *)
Definition tame_draws (K : R) (r : Random.state) : Prop :=
  (forall k, (k < 14)%nat -> (- K <= Random.next_normal r k <= K)%R) /\
  (forall k, (k < 5)%nat -> (0 <= Random.next_unit r k < 1)%R).

(** The three dose draws of a call (its ninth to eleventh normal draws) are
    no lower than [-K]. *)
Definition dose_draws_above (K : R) (r : Random.state) : Prop :=
  forall k, (8 <= k < 11)%nat -> (- K <= Random.next_normal r k)%R.

Definition scenario_baseline (sc : scenario) : Baseline :=
  baseline (main DEFAULT_HOST DEFAULT_PORT DEFAULT_RATE sc).

(** Shutdown is under way: either control is in the handler of [start], or
    [stop] has run (flag cleared, socket no longer open). *)
Definition stopping (m : Machine) : Prop :=
  match ctl m with
  | AtStart => False
  | AtExcept | AtFinally _ => True
  | Returned | Propagated _ => socket (sim m) <> Some SockOpen
  | _ => socket (sim m) <> Some SockOpen /\ running (sim m) = false
  end.

(** Control is inside the loop with [running] set, or an exception is on
    its way out of [start] through the [finally] clause. *)
Definition looping_or_failing (m : Machine) : Prop :=
  match ctl m with
  | AtWhile | AtStartTime | AtGenerate _ | AtSend _ _
  | AtUpdate _ | AtStatus _ | AtSleep _ => running (sim m) = true
  | AtFinally (Some _) | Propagated _ => True
  | _ => False
  end.

(** Statements left to execute once shutdown is under way. *)
Definition remaining (p : pc) : nat :=
  match p with
  | AtStart => 10
  | AtStartTime => 8
  | AtGenerate _ => 7
  | AtSend _ _ => 6
  | AtUpdate _ => 5
  | AtStatus _ => 4
  | AtSleep _ => 3
  | AtWhile => 2
  | AtExcept => 2
  | AtFinally _ => 1
  | Returned | Propagated _ => 0
  end.

(** ** Concrete inputs used in examples *)

Definition quiet_input : step_input := mkInput 0%R true None.

(** Every normal draw 0, every unit draw 1/2. *)
Definition calm_draws : Random.state :=
  Random.mkState (fun _ => 0%R) (fun _ => 0.5%R) 0 0.

Definition fresh_sim : Simulator := init DEFAULT_HOST DEFAULT_PORT DEFAULT_RATE.

(** The object once [start] has run its first lines. *)
Definition started_sim : Simulator :=
  mkSim DEFAULT_HOST DEFAULT_PORT DEFAULT_RATE true (Some SockOpen)
        0.0%R (baseline fresh_sim) 0.0%R 0.0%R.

Definition with_phases (self : Simulator) (orbit thermal : R) : Simulator :=
  mkSim (host self) (port self) (rate self) (running self) (socket self)
        (mission_time self) (baseline self) orbit thermal.

(** The machine at the loop test of the first tick. *)
Definition first_tick : Machine :=
  mkMachine started_sim calm_draws 0%R [] [MsgStarted] AtWhile.

(** All fields zero, both flags set. *)
Definition zero_sample : TelemetrySample :=
  mkSample 0 0 0 0 0 0 0 0 0 0 0 0 0 0 0 0 0 0 0 true true 0 0 0 0.

(** All fields zero except [icm_gyr_x = 100]. *)
Definition gyro100_sample : TelemetrySample :=
  mkSample 100 0 0 0 0 0 0 0 0 0 0 0 0 0 0 0 0 0 0 true true 0 0 0 0.

(** A gyro reading beyond 16 bits. *)
Definition overflow_sample : TelemetrySample :=
  mkSample 40000 0 0 0 0 0 0 0 0 0 0 0 0 0 0 0 0 0 0 true true 0 0 0 0.

(** The anomaly scenario, three eighths of the way round the orbit, where
    the belt factor is at its minimum. *)
Definition anomaly_sim : Simulator :=
  with_phases (apply_scenario anomaly started_sim) (3 * (PI / 4))%R 0%R.

(** A seven-sigma low draw for the second dose channel, all else calm. *)
Definition low_dose_draws : Random.state :=
  Random.mkState (fun k => if Nat.eqb k 9 then (-7)%R else 0%R)
                 (fun _ => 0.5%R) 0 0.

(** Every normal draw [z], every unit draw 1/2. *)
Definition constant_draws (z : R) : Random.state :=
  Random.mkState (fun _ => z) (fun _ => 0.5%R) 0 0.

(** The machine about to send sample [d] on a fresh wire. *)
Definition sending (d : TelemetrySample) : Machine :=
  mkMachine started_sim calm_draws 0%R [] [] (AtSend 0%R d).

(** The network refuses the datagram. *)
Definition refusing_input : step_input := mkInput 0%R false None.

(** A tick, from its send on, during which the network is down. *)
Definition lossy_inputs : list step_input :=
  [refusing_input; quiet_input; quiet_input; quiet_input; quiet_input].

(** The started machine between the send and the state update of a tick. *)
Definition mid_tick : Machine :=
  mkMachine started_sim calm_draws 0%R [] [MsgStarted] (AtUpdate 0%R).

Definition ctrl_c_input : step_input := mkInput 0%R true (Some CtrlC).
Definition stop_call_input : step_input := mkInput 0%R true (Some StopCall).

(** ** Further concrete inputs *)

Definition with_rate (self : Simulator) (rate : R) : Simulator :=
  mkSim (host self) (port self) rate (running self) (socket self)
        (mission_time self) (baseline self) (orbit_phase self) (thermal_cycle self).

(** The machine at the loop test of a tick, for a given object. *)
Definition at_loop_test (self : Simulator) : Machine :=
  mkMachine self calm_draws 0%R [] [MsgStarted] AtWhile.

(** Started with [--rate 0] and with [--rate -1]. *)
Definition zero_rate_sim : Simulator := with_rate started_sim 0%R.

(** Before [start] has run, nothing is open; once it is over, nothing is
    left open. *)
Definition released (m : Machine) : Prop :=
  match ctl m with
  | AtStart | Returned | Propagated _ =>
      socket (sim m) <> Some SockOpen /\ running (sim m) = false
  | _ => True
  end.

Definition with_mission_time (self : Simulator) (t : R) : Simulator :=
  mkSim (host self) (port self) (rate self) (running self) (socket self)
        t (baseline self) (orbit_phase self) (thermal_cycle self).

(** The started object an hour, two minutes and five and a half seconds
    into the mission. *)
Definition hour_in_sim : Simulator := with_mission_time started_sim 3725.5%R.

(** The object [__init__] builds for [--rate 10], in doubles. *)
Definition ten_hertz : Double.Simulator :=
  Double.init DEFAULT_HOST DEFAULT_PORT 10%float.

(** * Proofs *)

(** ** Little-endian encoding *)

Section EncoderFacts.
Import Struct.

Lemma byte_of_Z_value (x : Z) :
  0 <= x < 256 -> Z.of_N (Byte.to_N (byte_of_Z x)) = x.
Proof.
  intros Hx. unfold byte_of_Z.
  destruct (Byte.of_N (Z.to_N x)) as [b|] eqn:E.
  - apply Byte.to_of_N in E. rewrite E. lia.
  - apply Byte.of_N_None_iff in E. lia.
Qed.

Lemma land_255 (z : Z) : Z.land z 255 = z mod 256.
Proof. change 255 with (Z.ones 8). rewrite Z.land_ones by lia. reflexivity. Qed.

Lemma le_bytes_length (n : nat) (z : Z) : List.length (le_bytes n z) = n.
Proof. revert z. induction n as [|n IH]; intros z; simpl; [|rewrite IH]; reflexivity. Qed.

Lemma le_unsigned_le_bytes (n : nat) (z : Z) :
  le_unsigned (le_bytes n z) = z mod 2 ^ (8 * Z.of_nat n).
Proof.
  revert z. induction n as [|n IH]; intros z.
  - simpl. rewrite Z.mod_1_r. reflexivity.
  - cbn [le_bytes le_unsigned]. rewrite IH, land_255, Z.shiftr_div_pow2 by lia.
    rewrite byte_of_Z_value by (apply Z.mod_pos_bound; lia).
    replace (8 * Z.of_nat (S n)) with (8 + 8 * Z.of_nat n) by lia.
    rewrite Z.pow_add_r by lia. change (2 ^ 8) with 256.
    rewrite Z.rem_mul_r by lia. reflexivity.
Qed.

Lemma le_unsigned_roundtrip (n : nat) (z : Z) :
  0 <= z < 2 ^ (8 * Z.of_nat n) -> le_unsigned (le_bytes n z) = z.
Proof. intros H. rewrite le_unsigned_le_bytes. apply Z.mod_small, H. Qed.

Lemma le_signed_roundtrip (n : nat) (z : Z) :
  (0 < n)%nat ->
  - 2 ^ (8 * Z.of_nat n - 1) <= z < 2 ^ (8 * Z.of_nat n - 1) ->
  le_signed (le_bytes n z) = z.
Proof.
  intros Hn Hz. unfold le_signed.
  rewrite le_unsigned_le_bytes, le_bytes_length.
  set (w := 8 * Z.of_nat n) in *.
  assert (Hw : 2 ^ w = 2 * 2 ^ (w - 1)).
  { replace w with (1 + (w - 1)) at 1 by lia.
    rewrite Z.pow_add_r by lia. reflexivity. }
  assert (Hp : 0 < 2 ^ (w - 1)) by (apply Z.pow_pos_nonneg; lia).
  destruct (Z_lt_le_dec z 0) as [Hneg|Hpos].
  - assert (E : z mod 2 ^ w = z + 2 ^ w).
    { symmetry. apply Z.mod_unique with (q := -1); lia. }
    rewrite E. destruct (Z.ltb_spec (z + 2 ^ w) (2 ^ (w - 1))); lia.
  - rewrite Z.mod_small by lia.
    destruct (Z.ltb_spec z (2 ^ (w - 1))); lia.
Qed.
End EncoderFacts.

(** ** What [struct.pack] and the encoder compute *)

Section PackFacts.
Import Struct.

Lemma pack_one_spec (c : code) (v : pyval) :
  pack_one c v = if fits c v then Ok (encode_one c v) else Raise StructError.
Proof. destruct c; reflexivity. Qed.

Lemma encode_one_length (c : code) (v : pyval) :
  List.length (encode_one c v) = size_of c.
Proof. destruct c; cbn [encode_one]; try apply le_bytes_length; reflexivity. Qed.

Lemma pack_values_spec (cs : list code) (vs : list pyval) :
  pack_values cs vs =
  if all_fit cs vs then Ok (encode_all cs vs) else Raise StructError.
Proof.
  revert vs. induction cs as [|c cs IH]; intros [|v vs]; try reflexivity.
  cbn [pack_values all_fit encode_all]. rewrite pack_one_spec, IH.
  destruct (fits c v), (all_fit cs vs); reflexivity.
Qed.

Lemma encode_all_length (cs : list code) (vs : list pyval) :
  all_fit cs vs = true -> List.length (encode_all cs vs) = calcsize cs.
Proof.
  revert vs. induction cs as [|c cs IH]; intros [|v vs] H; try discriminate; try reflexivity.
  cbn [all_fit] in H. apply andb_prop in H as [_ H].
  cbn [encode_all calcsize fold_right]. rewrite length_app, encode_one_length.
  f_equal. apply IH, H.
Qed.

Lemma pack_values_length (cs : list code) (vs : list pyval) (bs : bytes) :
  pack_values cs vs = Ok bs -> List.length bs = calcsize cs.
Proof.
  rewrite pack_values_spec. destruct (all_fit cs vs) eqn:E; [|discriminate].
  intros [= <-]. apply encode_all_length, E.
Qed.

Lemma telemetry_format_parsed :
  parse_format TELEMETRY_FORMAT = Some telemetry_codes.
Proof. reflexivity. Qed.

Lemma telemetry_calcsize : calcsize telemetry_codes = TELEMETRY_FRAME_PAYLOAD_SIZE.
Proof. reflexivity. Qed.

Lemma header_packed :
  pack "BB" [PyInt FRAME_START_SYMBOL; PyInt TELEMETRY_FRAME] = Ok [x12; x06].
Proof. reflexivity. Qed.

Lemma _pack_telemetry_spec (d : TelemetrySample) :
  _pack_telemetry d =
  if sample_fits d then (Some (payload_of d), []) else (None, [MsgPackError]).
Proof.
  unfold _pack_telemetry, pack. rewrite telemetry_format_parsed, pack_values_spec.
  fold (sample_fits d). destruct (sample_fits d); reflexivity.
Qed.

Lemma payload_of_length (d : TelemetrySample) :
  sample_fits d = true -> List.length (payload_of d) = 63%nat.
Proof. intros H. unfold payload_of. rewrite encode_all_length by exact H. reflexivity. Qed.

Lemma _send_telemetry_spec (self : Simulator) (ok : bool) (d : TelemetrySample) :
  _send_telemetry self ok d =
  if sample_fits d then
    match sendto (socket self) ok ([x12; x06] ++ payload_of d) (host self, port self) with
    | Ok out => mkEffects out [] None
    | Raise _ => mkEffects [] [MsgSendError] None
    end
  else mkEffects [] [MsgPackError] None.
Proof.
  unfold _send_telemetry. rewrite _pack_telemetry_spec.
  destruct (sample_fits d) eqn:E; [|reflexivity].
  pose proof (payload_of_length d E) as L.
  destruct (payload_of d) as [|b p] eqn:P; [discriminate|].
  rewrite header_packed. reflexivity.
Qed.
End PackFacts.

(** ** The frame layout *)

Lemma in_type_b_spec (ty : wire_type) (z : Z) :
  in_type_b ty z = true <-> in_type ty z.
Proof.
  destruct ty; cbn [in_type_b in_type]; unfold in_u8, in_i16, in_u16, in_i32, in_u32;
    rewrite andb_true_iff, !Z.leb_le; reflexivity.
Qed.

Lemma declared_ranges_b_spec (d : TelemetrySample) :
  declared_ranges_b d = true <-> declared_ranges d.
Proof.
  unfold declared_ranges_b, declared_ranges. rewrite forallb_forall, Forall_forall.
  split; intros H [[off ty] get] Hin; specialize (H _ Hin); cbn in *;
    apply in_type_b_spec; exact H.
Qed.

Ltac split_ranges :=
  repeat match goal with
         | H : Forall _ (_ :: _) |- _ => inversion_clear H
         | H : Forall _ [] |- _ => clear H
         end;
  cbn [in_type] in *;
  unfold in_u8, in_i16, in_u16, in_i32, in_u32 in *.

Lemma declared_ranges_fit (d : TelemetrySample) :
  declared_ranges d -> sample_fits d = true.
Proof.
  intros H. unfold declared_ranges, wire_table in H. split_ranges.
  unfold sample_fits, telemetry_codes, telemetry_args.
  cbn [Struct.all_fit Struct.fits Struct.range_of Struct.as_int].
  repeat (apply andb_true_intro; split); try reflexivity; apply Z.leb_le; lia.
Qed.

Ltac read_back :=
  lazymatch goal with
  | |- le_signed _ = ?z =>
      first [ apply (le_signed_roundtrip 2 z); [lia | cbn; lia]
            | apply (le_signed_roundtrip 4 z); [lia | cbn; lia] ]
  | |- le_unsigned _ = Z.b2z ?b => destruct b; reflexivity
  | |- le_unsigned _ = ?z =>
      first [ apply (le_unsigned_roundtrip 1 z); cbn; lia
            | apply (le_unsigned_roundtrip 2 z); cbn; lia
            | apply (le_unsigned_roundtrip 4 z); cbn; lia ]
  end.

(** C1: for every sample whose fields are in their declared ranges, the
    frame handed to the network is exactly 65 bytes: the two header bytes
    followed by the 63-byte payload; reading the frame at each offset of the
    layout table, as a little-endian integer of the column's type, gives the
    corresponding field; and the two health flags are the single bytes
    [0x01] / [0x00] at offsets 58 and 59. *)
Theorem frame_layout (self : Simulator) (data : TelemetrySample) :
  declared_ranges data ->
  socket self = Some SockOpen ->
  exists payload : bytes,
    let frame := [x12; x06] ++ payload in
    fst (_pack_telemetry data) = Some payload /\
    List.length payload = 63%nat /\
    sent (_send_telemetry self true data) = [(frame, (host self, port self))] /\
    List.length frame = 65%nat /\
    Forall (fun row => let '(off, ty, get) := row in
                       read_field frame off ty = get data) wire_table /\
    nth 58 frame x00 = (if rdn_crystal_ok data then x01 else x00) /\
    nth 59 frame x00 = (if rdn_analog_ok data then x01 else x00).
Proof.
  intros Hr Hs. pose proof (declared_ranges_fit data Hr) as Hfit.
  exists (payload_of data). cbv zeta.
  rewrite _send_telemetry_spec, _pack_telemetry_spec, Hfit, Hs.
  pose proof (payload_of_length data Hfit) as Hlen.
  split; [reflexivity|]. split; [exact Hlen|]. split; [reflexivity|].
  split; [cbn [List.length app]; rewrite Hlen; reflexivity|].
  split; [|split; reflexivity].
  unfold declared_ranges, wire_table in Hr. split_ranges.
  unfold wire_table, payload_of, telemetry_codes, telemetry_args.
  cbn [Struct.encode_all Struct.encode_one Struct.size_of Struct.as_int Struct.truthy
       Struct.le_bytes app].
  repeat constructor;
    unfold read_field, slice;
    cbn [width firstn skipn];
    read_back.
Qed.

(** ** Truncation and the channels of the model *)

Section NumFacts.
Local Open Scope R_scope.

Lemma int_IZR (z : Z) : Num.int (IZR z) = z.
Proof.
  unfold Num.int. destruct (Rle_dec 0 (IZR z)).
  - apply ZfloorZ.
  - unfold Zceil. rewrite <- opp_IZR, ZfloorZ. lia.
Qed.

Lemma int_bounds (a b : Z) (x : R) :
  IZR a <= x <= IZR b -> (a <= Num.int x <= b)%Z.
Proof.
  intros [Ha Hb]. unfold Num.int. destruct (Rle_dec 0 x).
  - split; [apply Zfloor_lub, Ha|].
    apply le_IZR. pose proof (Zfloor_bound x). lra.
  - unfold Zceil. split.
    + apply le_IZR. rewrite opp_IZR. pose proof (Zfloor_bound (- x)). lra.
    + assert (- b <= Zfloor (- x))%Z; [|lia].
      apply Zfloor_lub. rewrite opp_IZR. lra.
Qed.

Lemma int_eq (z : Z) (x : R) : x = IZR z -> Num.int x = z.
Proof. intros ->. apply int_IZR. Qed.

Lemma gt_true (x y : R) : y < x -> Num.gt x y = true.
Proof. intros H. unfold Num.gt. destruct (Rlt_dec y x); [reflexivity|contradiction]. Qed.
End NumFacts.

Section ModelFacts.
Local Open Scope R_scope.
Import Random.

(** The sample written channel by channel, with the draws it consumes. *)
Lemma _generate_telemetry_fields (self : Simulator) (r : Random.state) :
  let b := baseline self in
  let z := next_normal r in
  let u := next_unit r in
  let phase := orbit_phase self in
  let th := thermal_cycle self in
  let M := radiation_multiplier self in
  fst (_generate_telemetry self r) =
  mkSample
    (Num.int (sin phase * 10 + (0 + z 0%nat * gyro_noise b) * 100))
    (Num.int (cos phase * 8 + (0 + z 1%nat * gyro_noise b) * 100))
    (Num.int ((0 + z 2%nat * gyro_noise b) * 100))
    (Num.int ((0 + z 3%nat * accel_noise b) * 1000))
    (Num.int ((0 + z 4%nat * accel_noise b) * 1000))
    (Num.int ((0.001 + z 5%nat * accel_noise b) * 1000))
    (Num.int (-10 + 15 * sin th + (0 + z 6%nat * temp_variation b) * 10))
    (Num.int (-25000 + 5000 * sin phase))
    (Num.int (15000 + 3000 * cos phase))
    (Num.int (45000 + 2000 * sin (phase * 0.7)))
    (Num.int (-5 + 10 * sin (th + 0.5) + (0 + z 7%nat * temp_variation b) * 10))
    (Num.int (radiation_base b * M + (0 + z 8%nat * radiation_variation b)))
    (Num.int (radiation_base b * M * 0.9 + (0 + z 9%nat * radiation_variation b)))
    (Num.int (radiation_base b * M * 1.1 + (0 + z 10%nat * radiation_variation b)))
    (Num.int (100 + 20 * sin (phase * 3)))
    (Num.int (95 + 18 * sin (phase * 3 + 0.2)))
    (Num.int (105 + 22 * sin (phase * 3 + 0.4)))
    (Num.int (20 + 5 * sin (th + 1.0) + (0 + z 11%nat * 1) * 10))
    (Num.int (3300 + (0 + z 12%nat * 10)))
    (Num.gt (u 0%nat) 0.01)
    (Num.gt (u 1%nat) 0.005)
    (Num.int (0 + (255 - 0) * u 2%nat))
    (if Num.gt (u 3%nat) 0.9 then 1%Z else 0%Z)
    (if Num.gt (u 4%nat) 0.95 then 1%Z else 0%Z)
    (Num.int (1000 + 500 * sin phase + (0 + z 13%nat * 50))).
Proof. reflexivity. Qed.

End ModelFacts.

(** ** Ranges of the generated sample *)

Section RangeFacts.
Local Open Scope R_scope.

(** C7 (amended): with the baseline constants of the nominal or the
    eclipse scenario, for every simulation state and every random outcome
    whose normal draws lie within ten standard deviations (all of
    [random.gauss]'s outcomes do: they stay within 8.58) and whose unit
    draws lie in [0, 1), every field of the sample is within its declared
    bit width and signedness.  With the constants of the anomaly scenario
    the same holds as long as the three dose draws are no lower than -6.3
    standard deviations.  The model itself performs no range check or
    clamp. *)
Theorem model_sample_in_range (sc : scenario) (self : Simulator) (r : Random.state) :
  baseline self = scenario_baseline sc ->
  tame_draws 10 r ->
  (sc = anomaly -> dose_draws_above 6.3 r) ->
  declared_ranges (fst (_generate_telemetry self r)).
Proof.
  intros Hb [Hn Hu] Hd.
  assert (Hdose : forall k, (8 <= k < 11)%nat ->
                    - (if match sc with anomaly => true | _ => false end
                       then 6.3 else 10) <= Random.next_normal r k).
  { intros k Hk. destruct sc; try (apply Hn; lia). apply Hd; [reflexivity|exact Hk]. }
  clear Hd.
  pose proof (Hdose 8%nat ltac:(lia)). pose proof (Hdose 9%nat ltac:(lia)).
  pose proof (Hdose 10%nat ltac:(lia)). clear Hdose.
  rewrite _generate_telemetry_fields. cbv zeta. rewrite Hb.
  pose proof (SIN_bound (orbit_phase self)).
  pose proof (COS_bound (orbit_phase self)).
  pose proof (SIN_bound (orbit_phase self * 0.7)).
  pose proof (SIN_bound (orbit_phase self * 2)).
  pose proof (SIN_bound (orbit_phase self * 3)).
  pose proof (SIN_bound (orbit_phase self * 3 + 0.2)).
  pose proof (SIN_bound (orbit_phase self * 3 + 0.4)).
  pose proof (SIN_bound (thermal_cycle self)).
  pose proof (SIN_bound (thermal_cycle self + 0.5)).
  pose proof (SIN_bound (thermal_cycle self + 1.0)).
  pose proof (Hn 0%nat ltac:(lia)). pose proof (Hn 1%nat ltac:(lia)).
  pose proof (Hn 2%nat ltac:(lia)). pose proof (Hn 3%nat ltac:(lia)).
  pose proof (Hn 4%nat ltac:(lia)). pose proof (Hn 5%nat ltac:(lia)).
  pose proof (Hn 6%nat ltac:(lia)). pose proof (Hn 7%nat ltac:(lia)).
  pose proof (Hn 8%nat ltac:(lia)). pose proof (Hn 9%nat ltac:(lia)).
  pose proof (Hn 10%nat ltac:(lia)). pose proof (Hn 11%nat ltac:(lia)).
  pose proof (Hn 12%nat ltac:(lia)). pose proof (Hn 13%nat ltac:(lia)).
  pose proof (Hu 0%nat ltac:(lia)). pose proof (Hu 1%nat ltac:(lia)).
  pose proof (Hu 2%nat ltac:(lia)). pose proof (Hu 3%nat ltac:(lia)).
  pose proof (Hu 4%nat ltac:(lia)).
  clear Hn Hu Hb.
  unfold radiation_multiplier, scenario_baseline.
  unfold declared_ranges, wire_table.
  repeat (apply Forall_cons || apply Forall_nil);
    cbn [in_type icm_gyr_x icm_gyr_y icm_gyr_z icm_acc_x icm_acc_y icm_acc_z
         icm_temp mmc_mag_x mmc_mag_y mmc_mag_z mmc_temp rdn_serial_dose
         rdn_sen1_dose rdn_sen2_dose rdn_serial_intensity rdn_sen1_intensity
         rdn_sen2_intensity rdn_temp rdn_vdd rdn_crystal_ok rdn_analog_ok
         encoder_sensor hall_endstop reflective_endstop light_sensor];
    unfold in_i16, in_i32, in_u32, in_u16, in_u8;
    try (apply int_bounds; destruct sc;
         cbn [main apply_scenario init with_baseline baseline gyro_noise accel_noise
              mag_noise temp_variation radiation_base radiation_variation];
         lra).
  all: match goal with |- context [Num.gt ?a ?b] => destruct (Num.gt a b) end;
    cbn [Z.b2z]; lia.
Qed.
End RangeFacts.

(** ** What reaches the wire *)

Section SendFacts.

Lemma _send_telemetry_raises_nothing (self : Simulator) (ok : bool) (d : TelemetrySample) :
  raised (_send_telemetry self ok d) = None.
Proof.
  rewrite _send_telemetry_spec. destruct (sample_fits d); [|reflexivity].
  destruct (sendto _ _ _ _); reflexivity.
Qed.

Lemma sendto_out (sock : option sock_state) (ok : bool) (frame : bytes)
      (dest : string * Z) (out : list datagram) :
  sendto sock ok frame dest = Ok out ->
  sock = Some SockOpen /\ ok = true /\ out = [(frame, dest)].
Proof.
  unfold sendto. destruct sock as [[|]|]; try discriminate.
  destruct ok; [|discriminate]. intros [= <-]. auto.
Qed.

(** Whatever [_send_telemetry] hands to the network is one complete frame,
    and only through an open socket. *)
Lemma _send_telemetry_sent (self : Simulator) (ok : bool) (d : TelemetrySample)
      (dg : datagram) :
  In dg (sent (_send_telemetry self ok d)) ->
  sample_fits d = true /\ socket self = Some SockOpen /\ ok = true /\
  dg = ([x12; x06] ++ payload_of d, (host self, port self)).
Proof.
  rewrite _send_telemetry_spec. destruct (sample_fits d); [|intros []].
  destruct (sendto _ _ _ _) as [out|e] eqn:E; [|intros []].
  apply sendto_out in E as (Hs & Hok & ->). intros [<-|[]]. auto.
Qed.

Lemma _send_telemetry_closed (self : Simulator) (ok : bool) (d : TelemetrySample) :
  socket self <> Some SockOpen -> sent (_send_telemetry self ok d) = [].
Proof.
  intros Hs. destruct (sent _) as [|dg l] eqn:E; [reflexivity|].
  destruct (_send_telemetry_sent self ok d dg) as (_ & H & _); [|contradiction].
  rewrite E. left. reflexivity.
Qed.
End SendFacts.

Section MachineFacts.
Local Open Scope R_scope.

Lemma step_quiet (i : step_input) (m : Machine) :
  quiet i -> step i m = exec i m.
Proof. unfold quiet, step. intros ->. reflexivity. Qed.

(** Datagrams only ever get appended, and only by [_send_telemetry]. *)
Lemma step_wire (i : step_input) (m : Machine) :
  wire (step i m) = wire m \/
  exists st d, ctl m = AtSend st d /\
               wire (step i m) = wire m ++ sent (_send_telemetry (sim m) (net_ok i) d).
Proof.
  assert (Hexec : wire (exec i m) = wire m \/
                  exists st d, ctl m = AtSend st d /\
                    wire (exec i m) = wire m ++ sent (_send_telemetry (sim m) (net_ok i) d)).
  { unfold exec. destruct (ctl m) eqn:E;
      try destruct (_generate_telemetry (sim m) (rng m));
      try destruct (update_state (sim m));
      try destruct (sleep_time (sim m) _ _);
      first [left; reflexivity | right; eauto]. }
  unfold step. destruct (stop_req i) as [[|]|]; [| left; reflexivity | exact Hexec].
  destruct (in_loop (ctl m)); [left; reflexivity|].
  destruct (ctl m) eqn:E; try exact Hexec; left; reflexivity.
Qed.

Lemma run_app (xs ys : list step_input) (m : Machine) :
  run (xs ++ ys) m = run ys (run xs m).
Proof. revert m. induction xs as [|x xs IH]; intros m; [reflexivity|apply IH]. Qed.

(** A property of datagrams that [_send_telemetry] guarantees holds of
    everything on the wire. *)
Lemma wire_invariant (P : datagram -> Prop) :
  (forall self ok d dg, In dg (sent (_send_telemetry self ok d)) -> P dg) ->
  forall inputs m, Forall P (wire m) -> Forall P (wire (run inputs m)).
Proof.
  intros HP. induction inputs as [|i rest IH]; intros m Hm; [exact Hm|].
  cbn [run]. apply IH.
  destruct (step_wire i m) as [->|(st & d & _ & ->)]; [exact Hm|].
  apply Forall_app. split; [exact Hm|].
  apply Forall_forall. intros dg Hin. eapply HP, Hin.
Qed.
End MachineFacts.

(** ** One tick of the loop *)

Section TickFacts.
Local Open Scope R_scope.

Lemma update_state_ok (self : Simulator) :
  rate self <> 0 -> update_state self = Ok (advanced self).
Proof.
  intros H. unfold update_state.
  destruct (Req_dec_T (rate self) 0); [contradiction|reflexivity].
Qed.

Lemma sleep_time_ok (self : Simulator) (st t : R) :
  rate self <> 0 ->
  sleep_time self st t = Ok (Rmax 0 (1.0 / rate self - (t - st))).
Proof.
  intros H. unfold sleep_time.
  destruct (Req_dec_T (rate self) 0); [contradiction|reflexivity].
Qed.

Variable m : Machine.
Variables i1 i2 i3 i4 i5 i6 i7 : step_input.
Hypothesis at_while : ctl m = AtWhile.
Hypothesis is_running : running (sim m) = true.
Hypothesis q1 : quiet i1.
Hypothesis q2 : quiet i2.
Hypothesis q3 : quiet i3.
Hypothesis q4 : quiet i4.

(** Lines 77-81: the sample is drawn from the state the tick started in. *)
Lemma run_to_send :
  run [i1; i2; i3] m =
  mkMachine (sim m) (snd (_generate_telemetry (sim m) (rng m)))
            (now m + dt i1 + dt i2 + dt i3) (wire m) (console m)
            (AtSend (now m + dt i1) (fst (_generate_telemetry (sim m) (rng m)))).
Proof.
  destruct m as [self r t w c p]. cbn in at_while, is_running. subst p.
  cbn [run]. rewrite !step_quiet by assumption.
  unfold exec at 3. cbn [ctl sim rng now wire console]. rewrite is_running.
  unfold exec at 2. cbn [ctl sim rng now wire console].
  unfold exec. cbn [ctl sim rng now wire console].
  destruct (_generate_telemetry self r). reflexivity.
Qed.

(** Line 82: the frame goes out while the state is still the old one. *)
Lemma run_past_send :
  run [i1; i2; i3; i4] m =
  mkMachine (sim m) (snd (_generate_telemetry (sim m) (rng m)))
            (now m + dt i1 + dt i2 + dt i3 + dt i4)
            (wire m ++ sent (_send_telemetry (sim m) (net_ok i4)
                               (fst (_generate_telemetry (sim m) (rng m)))))
            (console m ++ printed (_send_telemetry (sim m) (net_ok i4)
                                     (fst (_generate_telemetry (sim m) (rng m)))))
            (AtUpdate (now m + dt i1)).
Proof.
  change [i1; i2; i3; i4] with ([i1; i2; i3] ++ [i4]).
  rewrite run_app, run_to_send. cbn [run]. rewrite step_quiet by assumption.
  unfold exec. cbn [ctl sim rng now wire console].
  rewrite _send_telemetry_raises_nothing. reflexivity.
Qed.

Hypothesis q5 : quiet i5.
Hypothesis q6 : quiet i6.
Hypothesis q7 : quiet i7.
Hypothesis rate_nonzero : rate (sim m) <> 0.



End TickFacts.

(** ** The clock and the sleep *)

Section SleepFacts.
Local Open Scope R_scope.

(** Lines 92-94 never ask for a negative sleep, never for more than the
    period once the clock has not run backwards, and for none when the
    tick has used up its period. *)
Lemma sleep_time_bounds (self : Simulator) (st t : R) :
  rate self <> 0 ->
  exists d : R,
    sleep_time self st t = Ok d /\
    0 <= d /\
    (st <= t -> d <= Rmax 0 (1.0 / rate self)) /\
    (1.0 / rate self <= t - st -> d = 0).
Proof.
  intros Hrate. rewrite (sleep_time_ok _ _ _ Hrate). eexists. split; [reflexivity|].
  unfold Rmax.
  destruct (Rle_dec 0 (1.0 / rate self - (t - st)));
    destruct (Rle_dec 0 (1.0 / rate self)); repeat split; intros; lra.
Qed.

Lemma sleep_time_accepted (self : Simulator) (st t d : R) :
  rate_accepted self -> st <= t ->
  sleep_time self st t = Ok d -> sleep_accepted d.
Proof.
  intros [Hrate Hmax] Ht E.
  destruct (sleep_time_bounds self st t Hrate) as (d' & E' & H0 & H1 & _).
  rewrite E in E'. injection E' as <-. split; [exact H0|].
  specialize (H1 Ht). pose proof (Rle_abs (1.0 / rate self)).
  unfold Rmax in H1. unfold SLEEP_MAX in *.
  destruct (Rle_dec 0 (1.0 / rate self)); lra.
Qed.

Lemma update_state_keeps_rate (self self' : Simulator) :
  update_state self = Ok self' -> rate self' = rate self.
Proof.
  unfold update_state. destruct (Req_dec_T _ _); [discriminate|].
  intros [= <-]. reflexivity.
Qed.

Lemma exec_keeps_rate (i : step_input) (m : Machine) :
  rate (sim (exec i m)) = rate (sim m).
Proof.
  unfold exec. destruct (ctl m);
    try destruct (_generate_telemetry (sim m) (rng m));
    try (destruct (update_state (sim m)) as [self'|err] eqn:E;
         [apply update_state_keeps_rate in E|]);
    try destruct (sleep_time (sim m) _ _);
    cbn [sim rate stop fst]; auto.
Qed.

Lemma step_keeps_rate (i : step_input) (m : Machine) :
  rate (sim (step i m)) = rate (sim m).
Proof.
  unfold step. destruct (stop_req i) as [[|]|]; try apply exec_keeps_rate.
  - destruct (in_loop (ctl m)); [reflexivity|].
    destruct (ctl m); try apply exec_keeps_rate; reflexivity.
  - reflexivity.
Qed.

Lemma exec_clock_ok (i : step_input) (m : Machine) :
  forward i -> clock_ok m -> clock_ok (exec i m).
Proof.
  unfold forward, clock_ok, exec. intros Hi Hm.
  destruct m as [self r t w c p]. cbn [ctl sim rng now wire console] in *.
  destruct p;
    try destruct (running self);
    try destruct (_generate_telemetry self r);
    try destruct (raised (_send_telemetry self (net_ok i) data)) as [[]|];
    try destruct (update_state self) as [?|[]];
    try destruct (sleep_time self _ _) as [?|[]];
    try destruct pending;
    cbn [ctl now unwind stop fst snd]; try exact I; lra.
Qed.

Lemma step_clock_ok (i : step_input) (m : Machine) :
  forward i -> clock_ok m -> clock_ok (step i m).
Proof.
  intros Hi Hm. pose proof (exec_clock_ok i m Hi Hm) as Hexec.
  unfold step. destruct (stop_req i) as [[|]|]; try exact Hexec.
  - destruct (in_loop (ctl m)); [exact I|].
    destruct (ctl m) eqn:E; try exact Hexec. exact I.
  - unfold clock_ok, forward in *. cbn [stop ctl now].
    destruct (ctl m); try exact I; lra.
Qed.


(** With an accepted rate and a clock that does not run backwards, every
    duration the loop hands to [time.sleep] is one the call accepts. *)
Lemma run_sleeps_accepted (inputs : list step_input) (m : Machine) :
  rate_accepted (sim m) -> clock_ok m -> Forall forward inputs ->
  Forall sleep_accepted (sleeps inputs m).
Proof.
  revert m. induction inputs as [|i rest IH]; intros m Hrate Hc Hf; [constructor|].
  apply Forall_cons_iff in Hf as [Hi Hf]. cbn [sleeps].
  assert (Hrate' : rate_accepted (sim (step i m))).
  { unfold rate_accepted in *. rewrite step_keeps_rate. exact Hrate. }
  pose proof (step_clock_ok i m Hi Hc) as Hc'.
  specialize (IH (step i m) Hrate' Hc' Hf).
  destruct (sleep_request i m) as [d|] eqn:E; [|exact IH].
  constructor; [|exact IH].
  unfold sleep_request in E. destruct (stop_req i); [discriminate|].
  destruct (ctl m) eqn:Ec; try discriminate.
  destruct (sleep_time (sim m) start_time (now m + dt i)) as [d'|] eqn:Es;
    [|discriminate].
  injection E as <-. apply (sleep_time_accepted _ _ _ _ Hrate) in Es; [exact Es|].
  unfold clock_ok in Hc. rewrite Ec in Hc. unfold forward in Hi. lra.
Qed.
End SleepFacts.

(** ** The statements of a tick, one by one *)

Section StatementFacts.
Local Open Scope R_scope.

Lemma exec_at_send (i : step_input) (m : Machine) (st : R) (d : TelemetrySample) :
  ctl m = AtSend st d ->
  exec i m =
  mkMachine (sim m) (rng m) (now m + dt i)
            (wire m ++ sent (_send_telemetry (sim m) (net_ok i) d))
            (console m ++ printed (_send_telemetry (sim m) (net_ok i) d))
            (AtUpdate st).
Proof.
  intros Hc. unfold exec. rewrite Hc, _send_telemetry_raises_nothing. reflexivity.
Qed.

Lemma exec_at_update (i : step_input) (m : Machine) (st : R) :
  ctl m = AtUpdate st -> rate (sim m) <> 0 ->
  exec i m =
  mkMachine (advanced (sim m)) (rng m) (now m + dt i) (wire m) (console m)
            (AtStatus st).
Proof.
  intros Hc Hrate. unfold exec. rewrite Hc, (update_state_ok _ Hrate). reflexivity.
Qed.

Lemma exec_at_status (i : step_input) (m : Machine) (st : R) :
  ctl m = AtStatus st ->
  exec i m =
  mkMachine (sim m) (rng m) (now m + dt i) (wire m)
            (console m ++ [_print_status (sim m)]) (AtSleep st).
Proof. intros Hc. unfold exec. rewrite Hc. reflexivity. Qed.

Lemma exec_at_sleep (i : step_input) (m : Machine) (st : R) :
  ctl m = AtSleep st -> rate (sim m) <> 0 ->
  exec i m =
  mkMachine (sim m) (rng m)
            (now m + dt i + Rmax 0 (1.0 / rate (sim m) - (now m + dt i - st)))
            (wire m) (console m) AtWhile.
Proof.
  intros Hc Hrate. unfold exec. rewrite Hc, (sleep_time_ok _ _ _ Hrate). reflexivity.
Qed.




(** A statement other than the sleep hands nothing to [time.sleep]. *)
Lemma sleep_request_elsewhere (i : step_input) (m : Machine) :
  (forall st, ctl m <> AtSleep st) -> sleep_request i m = None.
Proof.
  intros H. unfold sleep_request. destruct (stop_req i); [reflexivity|].
  destruct (ctl m) eqn:E; try reflexivity. destruct (H start_time). reflexivity.
Qed.

Lemma sleep_request_at_sleep (i : step_input) (m : Machine) (st : R) :
  quiet i -> ctl m = AtSleep st -> rate (sim m) <> 0 ->
  sleep_request i m = Some (Rmax 0 (1.0 / rate (sim m) - (now m + dt i - st))).
Proof.
  intros Hq Hc Hrate. unfold sleep_request. rewrite Hq, Hc.
  rewrite (sleep_time_ok _ _ _ Hrate). reflexivity.
Qed.

End StatementFacts.

(** ** Shutdown *)

Section StopFacts.

Lemma stop_closes (self : Simulator) :
  socket (fst (stop self)) <> Some SockOpen /\ running (fst (stop self)) = false.
Proof. unfold stop. cbn. destruct (socket self); split; congruence. Qed.

Lemma update_state_keeps (self self' : Simulator) :
  update_state self = Ok self' ->
  socket self' = socket self /\ running self' = running self.
Proof.
  unfold update_state. destruct (Req_dec_T _ _); [discriminate|].
  intros [= <-]. split; reflexivity.
Qed.

Lemma unwind_stopping (e : exn) : unwind e = AtExcept \/ unwind e = AtFinally (Some e).
Proof. destruct e; cbn; auto. Qed.

Lemma exec_stopping (i : step_input) (m : Machine) :
  stopping m ->
  stopping (exec i m) /\ wire (exec i m) = wire m /\
  (remaining (ctl (exec i m)) <= remaining (ctl m) - 1)%nat.
Proof.
  unfold stopping, exec. destruct m as [self r t w c p]. cbn [ctl sim wire rng now console].
  destruct p; cbn [ctl sim wire remaining]; intros H; try contradiction.
  - destruct H as [Hs Hr]. rewrite Hr. cbn. auto with arith.
  - cbn. auto with arith.
  - destruct (_generate_telemetry self r). cbn. auto with arith.
  - destruct H as [Hs Hr]. rewrite (_send_telemetry_closed _ _ _ Hs), app_nil_r.
    rewrite _send_telemetry_raises_nothing. cbn. auto with arith.
  - destruct (update_state self) as [self'|e] eqn:E.
    + apply update_state_keeps in E as [E1 E2]. cbn. rewrite E1, E2. auto with arith.
    + cbn. destruct (unwind_stopping e) as [-> | ->]; cbn; auto with arith.
  - cbn. auto with arith.
  - destruct (sleep_time self _ _) as [d|e].
    + cbn. auto with arith.
    + cbn. destruct (unwind_stopping e) as [-> | ->]; cbn; auto with arith.
  - cbn. auto with arith.
  - pose proof (stop_closes self) as [Hs _]. destruct (stop self) as [self' out].
    cbn in *. destruct pending; cbn; auto with arith.
  - cbn. auto with arith.
  - cbn. auto with arith.
Qed.

Lemma step_stopping (i : step_input) (m : Machine) :
  stopping m -> stopping (step i m) /\ wire (step i m) = wire m.
Proof.
  intros H. unfold step. destruct (stop_req i) as [[|]|].
  - destruct (in_loop (ctl m)) eqn:L.
    + unfold stopping. cbn. auto.
    + destruct (ctl m) eqn:E; try (destruct (exec_stopping i m H) as (? & ? & _); auto; fail).
      unfold stopping in H. rewrite E in H. contradiction.
  - pose proof (stop_closes (sim m)) as [Hs Hr]. destruct (stop (sim m)) as [self' out].
    cbn in Hs, Hr. unfold stopping in *. cbn [ctl sim wire].
    destruct (ctl m); auto.
  - destruct (exec_stopping i m H) as (? & ? & _); auto.
Qed.

Lemma run_stopping (inputs : list step_input) (m : Machine) :
  stopping m -> stopping (run inputs m) /\ wire (run inputs m) = wire m.
Proof.
  revert m. induction inputs as [|i rest IH]; intros m H; [auto|].
  cbn [run]. destruct (step_stopping i m H) as [H1 H2].
  destruct (IH _ H1) as [H3 H4]. split; [exact H3|congruence].
Qed.

Lemma run_stopping_terminates (inputs : list step_input) (m : Machine) :
  stopping m -> Forall quiet inputs ->
  (remaining (ctl m) <= List.length inputs)%nat ->
  terminal (ctl (run inputs m)) = true.
Proof.
  revert m. induction inputs as [|i rest IH]; intros m H Hq Hn.
  - cbn in *. destruct (ctl m); cbn in *; try lia; reflexivity.
  - apply Forall_cons_iff in Hq as [Hi Hq]. cbn [run]. rewrite step_quiet by exact Hi.
    destruct (exec_stopping i m H) as (H1 & _ & H3).
    apply IH; try assumption. cbn [List.length] in Hn. lia.
Qed.

(** A stop request reaching the running loop starts the shutdown. *)
Lemma request_stops (r : stop_request) (i : step_input) (m : Machine) :
  in_loop (ctl m) = true -> stop_req i = Some r ->
  stopping (step i m) /\ wire (step i m) = wire m /\
  (remaining (ctl (step i m)) <= remaining (ctl m))%nat.
Proof.
  intros L Hr. unfold step. rewrite Hr. destruct r.
  - rewrite L. unfold stopping. cbn.
    destruct (ctl m); try discriminate; cbn; auto with arith.
  - pose proof (stop_closes (sim m)) as [Hs Hrun].
    destruct (stop (sim m)) as [self' out]. cbn in Hs, Hrun.
    unfold stopping. cbn [ctl sim wire].
    destruct (ctl m); try discriminate; auto.
Qed.

(** No statement replaces an existing socket object by [None]. *)
Lemma step_keeps_socket (i : step_input) (m : Machine) :
  socket (sim m) <> None -> socket (sim (step i m)) <> None.
Proof.
  intros H.
  assert (Hstop : socket (fst (stop (sim m))) <> None).
  { unfold stop. cbn. destruct (socket (sim m)); congruence. }
  assert (Hexec : socket (sim (exec i m)) <> None).
  { unfold exec. destruct (ctl m);
      try destruct (_generate_telemetry (sim m) (rng m));
      try (destruct (update_state (sim m)) as [self'|err] eqn:E;
           [apply update_state_keeps in E as [E1 _]; cbn [sim]; rewrite E1|]);
      try destruct (sleep_time (sim m) _ _);
      try (destruct (stop (sim m)); exact Hstop);
      cbn [sim socket]; solve [assumption | discriminate]. }
  unfold step. destruct (stop_req i) as [[|]|]; try exact Hexec.
  - destruct (in_loop (ctl m)); [exact H|]. destruct (ctl m); try exact Hexec. exact H.
  - destruct (stop (sim m)). exact Hstop.
Qed.

Lemma run_keeps_socket (inputs : list step_input) (m : Machine) :
  socket (sim m) <> None -> socket (sim (run inputs m)) <> None.
Proof.
  revert m. induction inputs as [|i rest IH]; intros m H; [exact H|].
  cbn [run]. apply IH, step_keeps_socket, H.
Qed.
End StopFacts.

(** ** The encoder on concrete samples *)

(** [frame_layout] at the documented example sample. *)
Lemma frame_layout_witness :
  declared_ranges gyro100_sample /\
  socket started_sim = Some SockOpen /\
  exists payload : bytes,
    let frame := [x12; x06] ++ payload in
    fst (_pack_telemetry gyro100_sample) = Some payload /\
    List.length payload = 63%nat /\
    sent (_send_telemetry started_sim true gyro100_sample)
    = [(frame, (host started_sim, port started_sim))] /\
    List.length frame = 65%nat /\
    Forall (fun row => let '(off, ty, get) := row in
                       read_field frame off ty = get gyro100_sample) wire_table /\
    nth 58 frame x00 = (if rdn_crystal_ok gyro100_sample then x01 else x00) /\
    nth 59 frame x00 = (if rdn_analog_ok gyro100_sample then x01 else x00).
Proof.
  assert (Hr : declared_ranges gyro100_sample)
    by (apply declared_ranges_b_spec; reflexivity).
  split; [exact Hr|]. split; [reflexivity|].
  exact (frame_layout started_sim gyro100_sample Hr eq_refl).
Defined.

(** The literal bytes of the documented example: [gyro_x = 100] is
    [0x64 0x00] at offsets 2-3. *)
Example gyro100_payload :
  firstn 4 ([x12; x06] ++ payload_of gyro100_sample) = [x12; x06; x64; x00].
Proof. reflexivity. Qed.

Section FormatFacts.

Lemma within_format_fits (d : TelemetrySample) :
  within_format d <-> sample_fits d = true.
Proof.
  unfold within_format, wire_table, sample_fits, telemetry_codes, telemetry_args.
  cbn [Struct.all_fit Struct.fits Struct.range_of Struct.as_int].
  split.
  - intros H. split_ranges.
    repeat (apply andb_true_intro; split); try reflexivity; apply Z.leb_le; lia.
  - intros H.
    repeat match type of H with
           | (_ && _) = true => apply andb_prop in H; destruct H as [? H]
           end.
    repeat match goal with
           | H : (_ <=? _) = true |- _ => apply Z.leb_le in H
           end.
    repeat (apply Forall_cons || apply Forall_nil);
      cbn [in_type]; unfold in_u8, in_i16, in_u16, in_i32, in_u32;
      try exact I; lia.
Qed.

Lemma not_within_format (d : TelemetrySample) :
  ~ within_format d -> sample_fits d = false.
Proof.
  intros H. destruct (sample_fits d) eqn:E; [|reflexivity].
  exfalso. apply H, within_format_fits, E.
Qed.
End FormatFacts.

(** ** Out-of-range samples, header and payload *)

Section CounterexampleFacts.
Local Open Scope R_scope.

Lemma anomaly_low_dose :
  rdn_sen1_dose (fst (_generate_telemetry anomaly_sim low_dose_draws)) = (-70)%Z.
Proof.
  rewrite _generate_telemetry_fields. cbv zeta. cbn [rdn_sen1_dose].
  apply int_eq. unfold radiation_multiplier.
  cbn [anomaly_sim with_phases apply_scenario with_baseline started_sim fresh_sim init
       baseline orbit_phase radiation_base radiation_variation
       Random.next_normal low_dose_draws Random.normal_draws Random.normal_pos
       Nat.add Nat.eqb].
  replace (3 * (PI / 4) * 2) with (3 * (PI / 2)) by lra.
  rewrite sin_3PI2. lra.
Qed.

Lemma negative_dose_rejected (d : TelemetrySample) :
  (rdn_sen1_dose d < 0)%Z -> sample_fits d = false.
Proof.
  intros H. apply not_within_format. unfold within_format, wire_table. intros F.
  split_ranges. lia.
Qed.
End CounterexampleFacts.

(** C4, as stated, fails: the sample the model produces under the anomaly
    scenario at orbit phase 3*pi/4 with a seven-sigma low draw has a negative
    dose; the encoder does not truncate or saturate it, packing yields no
    payload and no frame is sent. *)
Lemma out_of_range_sample_dropped :
  let d := fst (_generate_telemetry anomaly_sim low_dose_draws) in
  rdn_sen1_dose d = -70 /\
  _pack_telemetry d = (None, [MsgPackError]) /\
  sent (_send_telemetry anomaly_sim true d) = [].
Proof.
  cbv zeta. pose proof anomaly_low_dose as H.
  assert (F : sample_fits (fst (_generate_telemetry anomaly_sim low_dose_draws)) = false)
    by (apply negative_dose_rejected; rewrite H; lia).
  split; [exact H|].
  rewrite _pack_telemetry_spec, _send_telemetry_spec, F. split; reflexivity.
Qed.

(** C4 (amended): encoding never raises, and it neither truncates nor
    saturates.  When every numeric field is within the range of its format
    code the 63-byte payload is produced; otherwise [_pack_telemetry] prints
    the packing error and returns no payload, and [_send_telemetry] sends
    nothing for that sample. *)
Theorem encoder_accepts_or_drops (self : Simulator) (ok : bool) (d : TelemetrySample) :
  raised (_send_telemetry self ok d) = None /\
  (within_format d ->
   exists payload : bytes,
     _pack_telemetry d = (Some payload, []) /\ List.length payload = 63%nat) /\
  (~ within_format d ->
   _pack_telemetry d = (None, [MsgPackError]) /\
   sent (_send_telemetry self ok d) = [] /\
   printed (_send_telemetry self ok d) = [MsgPackError]).
Proof.
  split; [apply _send_telemetry_raises_nothing|]. split.
  - intros H. apply within_format_fits in H. exists (payload_of d).
    rewrite _pack_telemetry_spec, H. split; [reflexivity|apply payload_of_length, H].
  - intros H. apply not_within_format in H.
    rewrite _pack_telemetry_spec, _send_telemetry_spec, H. repeat split.
Qed.

(** [encoder_accepts_or_drops] at an accepted and at a rejected sample. *)
Lemma encoder_accepts_or_drops_witness :
  within_format gyro100_sample /\
  (exists payload : bytes,
     _pack_telemetry gyro100_sample = (Some payload, []) /\
     List.length payload = 63%nat) /\
  ~ within_format overflow_sample /\
  _pack_telemetry overflow_sample = (None, [MsgPackError]) /\
  sent (_send_telemetry started_sim true overflow_sample) = [] /\
  printed (_send_telemetry started_sim true overflow_sample) = [MsgPackError].
Proof.
  assert (H1 : within_format gyro100_sample)
    by (apply within_format_fits; reflexivity).
  assert (H2 : ~ within_format overflow_sample).
  { intros F. apply within_format_fits in F. discriminate F. }
  split; [exact H1|]. split.
  - exact (proj1 (proj2 (encoder_accepts_or_drops started_sim true gyro100_sample)) H1).
  - split; [exact H2|].
    exact (proj2 (proj2 (encoder_accepts_or_drops started_sim true overflow_sample)) H2).
Defined.

(** C5: every frame on the wire starts with the bytes [0x12 0x06], whatever
    the samples were and whatever happened during the run. *)
Theorem header_bytes (m : Machine) (inputs : list step_input)
        (frame : bytes) (dest : string * Z) :
  wire m = [] ->
  In (frame, dest) (wire (run inputs m)) ->
  nth_error frame 0 = Some x12 /\ nth_error frame 1 = Some x06.
Proof.
  intros Hw Hin.
  pose proof (wire_invariant
                (fun dg => nth_error (fst dg) 0 = Some x12 /\
                           nth_error (fst dg) 1 = Some x06)) as Inv.
  assert (F : Forall (fun dg => nth_error (fst dg) 0 = Some x12 /\
                                nth_error (fst dg) 1 = Some x06)
                     (wire (run inputs m))).
  { apply Inv; [|rewrite Hw; constructor].
    intros self ok d dg Hs. apply _send_telemetry_sent in Hs as (_ & _ & _ & ->).
    split; reflexivity. }
  rewrite Forall_forall in F. exact (F _ Hin).
Qed.

Section WitnessFacts.
Local Open Scope R_scope.

(** One step from the send statement with the network up. *)
Lemma send_step_wire (d : TelemetrySample) :
  sample_fits d = true ->
  wire (run [quiet_input] (sending d))
  = [([x12; x06] ++ payload_of d, (DEFAULT_HOST, DEFAULT_PORT))].
Proof.
  intros H. cbn [run]. rewrite step_quiet by reflexivity.
  unfold exec, sending. cbn [ctl sim wire net_ok quiet_input app].
  rewrite _send_telemetry_spec, H. reflexivity.
Qed.
End WitnessFacts.

(** [header_bytes] at the frame of the example sample. *)
Lemma header_bytes_witness :
  let m := sending gyro100_sample in
  let frame := [x12; x06] ++ payload_of gyro100_sample in
  wire m = [] /\
  In (frame, (DEFAULT_HOST, DEFAULT_PORT)) (wire (run [quiet_input] m)) /\
  nth_error frame 0 = Some x12 /\ nth_error frame 1 = Some x06.
Proof.
  cbv zeta.
  assert (Hin : In ([x12; x06] ++ payload_of gyro100_sample, (DEFAULT_HOST, DEFAULT_PORT))
                   (wire (run [quiet_input] (sending gyro100_sample)))).
  { rewrite send_step_wire by reflexivity. left. reflexivity. }
  split; [reflexivity|]. split; [exact Hin|].
  exact (header_bytes (sending gyro100_sample) [quiet_input] _ _ eq_refl Hin).
Defined.

(** C10: when packing fails nothing at all is sent for that tick, and every
    datagram that does reach the wire is the two header bytes followed by
    the complete 63-byte payload of some sample. *)
Theorem no_partial_datagram :
  (forall (self : Simulator) (ok : bool) (d : TelemetrySample),
      fst (_pack_telemetry d) = None ->
      sent (_send_telemetry self ok d) = []) /\
  (forall (m : Machine) (inputs : list step_input) (dg : datagram),
      wire m = [] ->
      In dg (wire (run inputs m)) ->
      exists (d : TelemetrySample) (payload : bytes),
        fst (_pack_telemetry d) = Some payload /\
        List.length payload = TELEMETRY_FRAME_PAYLOAD_SIZE /\
        fst dg = [x12; x06] ++ payload /\
        List.length (fst dg) = 65%nat).
Proof.
  split.
  - intros self ok d H. rewrite _pack_telemetry_spec in H.
    rewrite _send_telemetry_spec. destruct (sample_fits d); [discriminate H|reflexivity].
  - intros m inputs dg Hw Hin.
    set (P := fun dg : datagram =>
                exists (d : TelemetrySample) (payload : bytes),
                  fst (_pack_telemetry d) = Some payload /\
                  List.length payload = TELEMETRY_FRAME_PAYLOAD_SIZE /\
                  fst dg = [x12; x06] ++ payload /\
                  List.length (fst dg) = 65%nat).
    assert (F : Forall P (wire (run inputs m))).
    { apply wire_invariant; [|rewrite Hw; constructor].
      intros self ok d dg' Hs. apply _send_telemetry_sent in Hs as (Hf & _ & _ & ->).
      exists d, (payload_of d). rewrite _pack_telemetry_spec, Hf.
      pose proof (payload_of_length d Hf) as L.
      split; [reflexivity|]. split; [exact L|]. split; [reflexivity|].
      cbn [fst List.length app]. rewrite L. reflexivity. }
    rewrite Forall_forall in F. exact (F _ Hin).
Qed.

(** [no_partial_datagram] at a rejected sample and at a sent frame. *)
Lemma no_partial_datagram_witness :
  let m := sending zero_sample in
  let dg := ([x12; x06] ++ payload_of zero_sample, (DEFAULT_HOST, DEFAULT_PORT)) in
  fst (_pack_telemetry overflow_sample) = None /\
  sent (_send_telemetry started_sim true overflow_sample) = [] /\
  wire m = [] /\
  In dg (wire (run [quiet_input] m)) /\
  exists (d : TelemetrySample) (payload : bytes),
    fst (_pack_telemetry d) = Some payload /\
    List.length payload = TELEMETRY_FRAME_PAYLOAD_SIZE /\
    fst dg = [x12; x06] ++ payload /\
    List.length (fst dg) = 65%nat.
Proof.
  cbv zeta.
  assert (Hin : In ([x12; x06] ++ payload_of zero_sample, (DEFAULT_HOST, DEFAULT_PORT))
                   (wire (run [quiet_input] (sending zero_sample)))).
  { rewrite send_step_wire by reflexivity. left. reflexivity. }
  split; [reflexivity|].
  split; [exact (proj1 no_partial_datagram started_sim true overflow_sample eq_refl)|].
  split; [reflexivity|]. split; [exact Hin|].
  exact (proj2 no_partial_datagram (sending zero_sample) [quiet_input] _ eq_refl Hin).
Defined.

(** ** The radiation belt factor and the range of the noise *)

Section BeltFacts.
Local Open Scope R_scope.

Lemma belt_at_zero : radiation_multiplier started_sim = 1.
Proof.
  unfold radiation_multiplier. cbn [started_sim orbit_phase].
  replace (0.0 * 2) with 0 by lra. rewrite sin_0. lra.
Qed.

Lemma belt_at_quarter : radiation_multiplier (with_phases started_sim (PI / 2) 0) = 1.
Proof.
  unfold radiation_multiplier. cbn [with_phases orbit_phase].
  replace (PI / 2 * 2) with PI by lra. rewrite sin_PI. lra.
Qed.

Lemma intensity_at_zero (r : Random.state) :
  rdn_serial_intensity (fst (_generate_telemetry started_sim r)) = 100%Z.
Proof.
  rewrite _generate_telemetry_fields. cbv zeta. cbn [rdn_serial_intensity].
  apply int_eq. cbn [started_sim orbit_phase].
  replace (0.0 * 3) with 0 by lra. rewrite sin_0. lra.
Qed.

Lemma intensity_at_quarter (r : Random.state) :
  rdn_serial_intensity
    (fst (_generate_telemetry (with_phases started_sim (PI / 2) 0) r)) = 80%Z.
Proof.
  rewrite _generate_telemetry_fields. cbv zeta. cbn [rdn_serial_intensity].
  apply int_eq. cbn [with_phases orbit_phase].
  replace (PI / 2 * 3) with (3 * (PI / 2)) by lra. rewrite sin_3PI2. lra.
Qed.
End BeltFacts.

(** C2, as stated, fails for the intensity channels: at orbit phases 0 and
    pi/2 the belt factor is the same (1), yet the serial intensity reads 100
    and 80; so no intensity value is the belt factor times a constant plus
    phase-independent noise. *)
Lemma intensity_not_scaled_by_belt :
  radiation_multiplier started_sim
  = radiation_multiplier (with_phases started_sim (PI / 2) 0) /\
  rdn_serial_intensity (fst (_generate_telemetry started_sim calm_draws)) = 100 /\
  rdn_serial_intensity
    (fst (_generate_telemetry (with_phases started_sim (PI / 2) 0) calm_draws)) = 80 /\
  ~ scaled_by_belt rdn_serial_intensity.
Proof.
  split; [rewrite belt_at_zero, belt_at_quarter; reflexivity|].
  split; [apply intensity_at_zero|]. split; [apply intensity_at_quarter|].
  intros (k & noise & H).
  pose proof (H started_sim calm_draws) as H0.
  pose proof (H (with_phases started_sim (PI / 2) 0) calm_draws) as H1.
  rewrite intensity_at_zero, belt_at_zero in H0.
  rewrite intensity_at_quarter, belt_at_quarter in H1.
  cbn [with_phases baseline] in H1. rewrite <- H0 in H1. discriminate H1.
Qed.

(** C2 (amended): the three radiation dose channels are scaled by one and
    the same belt factor [1 + 0.3 * sin (2 * orbit_phase)], applied to the
    baseline level before the per-sensor constant (1, 0.9, 1.1) and the
    noise.  The three intensity channels do not use the factor: each is a
    fixed offset plus a sine of three times the orbit phase, without noise. *)
Theorem belt_factor_scales_doses (self : Simulator) (r : Random.state) :
  radiation_multiplier self = (1.0 + 0.3 * sin (orbit_phase self * 2))%R /\
  scaled_by_belt rdn_serial_dose /\
  scaled_by_belt rdn_sen1_dose /\
  scaled_by_belt rdn_sen2_dose /\
  let d := fst (_generate_telemetry self r) in
  let b := baseline self in
  let noise k := (0 + Random.next_normal r k * radiation_variation b)%R in
  rdn_serial_dose d
  = Num.int (radiation_base b * radiation_multiplier self + noise 8%nat)%R /\
  rdn_sen1_dose d
  = Num.int (radiation_base b * radiation_multiplier self * 0.9 + noise 9%nat)%R /\
  rdn_sen2_dose d
  = Num.int (radiation_base b * radiation_multiplier self * 1.1 + noise 10%nat)%R /\
  rdn_serial_intensity d = Num.int (100 + 20 * sin (orbit_phase self * 3))%R /\
  rdn_sen1_intensity d = Num.int (95 + 18 * sin (orbit_phase self * 3 + 0.2))%R /\
  rdn_sen2_intensity d = Num.int (105 + 22 * sin (orbit_phase self * 3 + 0.4))%R.
Proof.
  split; [reflexivity|].
  split; [|split; [|split]].
  - exists 1%R, (fun b r => 0 + Random.next_normal r 8 * radiation_variation b)%R.
    intros s q. rewrite _generate_telemetry_fields. cbv zeta. cbn [rdn_serial_dose].
    f_equal. ring.
  - exists 0.9%R, (fun b r => 0 + Random.next_normal r 9 * radiation_variation b)%R.
    intros s q. rewrite _generate_telemetry_fields. reflexivity.
  - exists 1.1%R, (fun b r => 0 + Random.next_normal r 10 * radiation_variation b)%R.
    intros s q. rewrite _generate_telemetry_fields. reflexivity.
  - rewrite _generate_telemetry_fields. cbv zeta. repeat split.
Qed.

Section ReachFacts.
Local Open Scope R_scope.

Lemma low_dose_draws_tame : tame_draws 8.57 low_dose_draws.
Proof.
  split; intros k _; unfold Random.next_normal, Random.next_unit, low_dose_draws;
    cbn [Random.normal_draws Random.unit_draws Random.normal_pos]; [|lra].
  destruct (Nat.eqb _ _); lra.
Qed.
End ReachFacts.

(** C7, as stated, fails: nothing in the model bounds the noise from
    below.  Under the anomaly scenario at orbit phase 3*pi/4, where the belt
    factor is 0.7, a draw seven standard deviations low (within what
    [random.gauss] can return) gives a dose of -70, not an unsigned
    value. *)
Lemma model_sample_out_of_range :
  baseline anomaly_sim = scenario_baseline anomaly /\
  tame_draws 8.57 low_dose_draws /\
  (let d := fst (_generate_telemetry anomaly_sim low_dose_draws) in
   rdn_sen1_dose d = -70 /\ ~ in_u32 (rdn_sen1_dose d) /\ ~ declared_ranges d) /\
  ~ (forall (self : Simulator) (r : Random.state),
        declared_ranges (fst (_generate_telemetry self r))).
Proof.
  assert (N : ~ declared_ranges (fst (_generate_telemetry anomaly_sim low_dose_draws))).
  { intros H. apply declared_ranges_fit in H.
    rewrite negative_dose_rejected in H; [discriminate H|].
    rewrite anomaly_low_dose. lia. }
  split; [reflexivity|]. split; [exact low_dose_draws_tame|].
  cbv zeta. rewrite anomaly_low_dose.
  split; [split; [reflexivity|split; [unfold in_u32; lia|exact N]]|].
  intros H. exact (N (H anomaly_sim low_dose_draws)).
Qed.

Section CalmFacts.
Local Open Scope R_scope.

Lemma constant_draws_tame (z : R) :
  -10 <= z <= 10 -> tame_draws 10 (constant_draws z).
Proof.
  intros Hz.
  split; intros k _; unfold Random.next_normal, Random.next_unit, constant_draws;
    cbn [Random.normal_draws Random.unit_draws]; lra.
Qed.

Lemma constant_draws_above (z : R) :
  -6.3 <= z -> dose_draws_above 6.3 (constant_draws z).
Proof.
  intros Hz k _. unfold Random.next_normal, constant_draws.
  cbn [Random.normal_draws]. lra.
Qed.

Lemma default_rate_nonzero : rate started_sim <> 0.
Proof. cbn [started_sim rate]. unfold DEFAULT_RATE. lra. Qed.
End CalmFacts.

(** [model_sample_in_range] at the first tick of a nominal run with every
    draw 8.57 standard deviations low, and under the anomaly scenario at the
    minimum of the belt factor with every draw 6.3 standard deviations
    low. *)
Lemma model_sample_in_range_witness :
  (baseline started_sim = scenario_baseline nominal /\
   tame_draws 10 (constant_draws (-8.57)) /\
   (nominal = anomaly -> dose_draws_above 6.3 (constant_draws (-8.57))) /\
   declared_ranges (fst (_generate_telemetry started_sim (constant_draws (-8.57))))) /\
  (baseline anomaly_sim = scenario_baseline anomaly /\
   tame_draws 10 (constant_draws (-6.3)) /\
   (anomaly = anomaly -> dose_draws_above 6.3 (constant_draws (-6.3))) /\
   declared_ranges (fst (_generate_telemetry anomaly_sim (constant_draws (-6.3))))).
Proof.
  assert (T1 : tame_draws 10 (constant_draws (-8.57)))
    by (apply constant_draws_tame; lra).
  assert (D1 : nominal = anomaly -> dose_draws_above 6.3 (constant_draws (-8.57)))
    by (intros E; discriminate E).
  assert (T2 : tame_draws 10 (constant_draws (-6.3)))
    by (apply constant_draws_tame; lra).
  assert (D2 : anomaly = anomaly -> dose_draws_above 6.3 (constant_draws (-6.3)))
    by (intros _; apply constant_draws_above; lra).
  split.
  - split; [reflexivity|]. split; [exact T1|]. split; [exact D1|].
    exact (model_sample_in_range nominal started_sim (constant_draws (-8.57))
                                 eq_refl T1 D1).
  - split; [reflexivity|]. split; [exact T2|]. split; [exact D2|].
    exact (model_sample_in_range anomaly anomaly_sim (constant_draws (-6.3))
                                 eq_refl T2 D2).
Defined.

(** ** Order and effect of a tick *)


Section LoopFacts.
Local Open Scope R_scope.


(** [start] on a fresh object reaches the first tick. *)
Remark boot_first_tick :
  exists t : R,
    start fresh_sim calm_draws [quiet_input]
    = mkMachine started_sim calm_draws t [] [MsgStarted] AtWhile.
Proof. eexists. reflexivity. Qed.

Lemma repeat_quiet (n : nat) : Forall quiet (repeat quiet_input n).
Proof. induction n; cbn; constructor; [reflexivity|assumption]. Qed.
End LoopFacts.




(** ** The state update in doubles *)

Section DoubleFacts.
Import Double.
Local Open Scope float_scope.

Lemma update_state_double (self : Double.Simulator) :
  (Double.rate self =? 0) = false ->
  Double.update_state self =
  Ok (Double.mkSim (Double.host self) (Double.port self) (Double.rate self)
                   (Double.running self) (Double.socket self)
                   (Double.mission_time self + 1.0 / Double.rate self)
                   (Double.baseline self)
                   (Double.orbit_phase self + 0.01)
                   (Double.thermal_cycle self + 0.05)).
Proof. intros H. unfold Double.update_state. rewrite H. reflexivity. Qed.

(** Tick after tick the update is the same three roundings. *)
Lemma ticks_double (n : nat) (self : Double.Simulator) :
  (Double.rate self =? 0) = false ->
  exists a : Double.Simulator,
    Double.ticks n self = Ok a /\
    Double.rate a = Double.rate self /\
    Double.mission_time a
    = Nat.iter n (fun x => x + 1.0 / Double.rate self) (Double.mission_time self) /\
    Double.orbit_phase a = Nat.iter n (fun x => x + 0.01) (Double.orbit_phase self) /\
    Double.thermal_cycle a = Nat.iter n (fun x => x + 0.05) (Double.thermal_cycle self).
Proof.
  revert self. induction n as [|n IH]; intros self H.
  - exists self. cbn. auto.
  - cbn [Double.ticks]. rewrite (update_state_double self H).
    match goal with
    | |- exists a, Double.ticks n ?s = _ /\ _ => destruct (IH s H) as (a & E & R & M & O & T)
    end.
    exists a. cbn [Double.rate Double.mission_time Double.orbit_phase
                   Double.thermal_cycle] in R, M, O, T.
    rewrite !Nat.iter_succ_r. auto.
Qed.
End DoubleFacts.

(** C6, as stated, fails: the sums of lines 85-87 are rounded.  At rate 10
    the third tick takes [thermal_cycle] from 0.1 to 0.15000000000000002 and
    [mission_time] from 0.2 to 0.30000000000000004: neither increase is the
    increment, whether the increment is read as the double the program adds
    or as the decimal number.  (The first tick's increase is exact.)  After
    ten ticks [mission_time] is 0.9999999999999999, not 1. *)
Lemma third_tick_not_exact :
  exists s1 s2 s3 s10 : Double.Simulator,
    Double.update_state ten_hertz = Ok s1 /\
    Double.ticks 2 ten_hertz = Ok s2 /\
    Double.update_state s2 = Ok s3 /\
    Double.ticks 10 ten_hertz = Ok s10 /\
    Double.thermal_cycle s2 = 0.1%float /\
    Double.thermal_cycle s3 = 0.15000000000000002%float /\
    Double.mission_time s2 = 0.2%float /\
    Double.mission_time s3 = 0.30000000000000004%float /\
    (forall c : Q,
        Double.exact 0.05 = Some c \/ c = (5 # 100)%Q ->
        Double.increases_by (Double.thermal_cycle s2) (Double.thermal_cycle s3) c = false) /\
    (forall c : Q,
        Double.exact (1.0 / Double.rate s2) = Some c \/ c = (1 # 10)%Q ->
        Double.increases_by (Double.mission_time s2) (Double.mission_time s3) c = false) /\
    (exists c : Q,
        Double.exact 0.05 = Some c /\
        Double.increases_by (Double.thermal_cycle ten_hertz) (Double.thermal_cycle s1) c
        = true) /\
    Double.mission_time s10 = 0.9999999999999999%float /\
    Double.orbit_phase s10 = 0.09999999999999999%float /\
    Double.thermal_cycle s10 = 0.49999999999999994%float.
Proof.
  do 4 eexists.
  split; [vm_compute; reflexivity|]. split; [vm_compute; reflexivity|].
  split; [vm_compute; reflexivity|]. split; [vm_compute; reflexivity|].
  cbn [Double.thermal_cycle Double.mission_time Double.orbit_phase Double.rate].
  split; [reflexivity|]. split; [reflexivity|].
  split; [reflexivity|]. split; [reflexivity|].
  split.
  { intros c [E | ->]; [vm_compute in E; injection E as <-|]; vm_compute; reflexivity. }
  split.
  { intros c [E | ->]; [vm_compute in E; injection E as <-|]; vm_compute; reflexivity. }
  split.
  { eexists. split; vm_compute; reflexivity. }
  split; [reflexivity|]. split; reflexivity.
Qed.

(** C6 (amended): on every tick with a rate that is not zero the update
    replaces [mission_time] by the double nearest to [mission_time + 1/rate]
    ([1/rate] itself rounded), [orbit_phase] by the double nearest to
    [orbit_phase + 0.01] and [thermal_cycle] by the double nearest to
    [thermal_cycle + 0.05]; no other field of the object changes.  Over any
    number of ticks the two phases are obtained by repeating these two
    rounded additions from their starting values: the rate does not enter. *)
Theorem update_state_rounds (self : Double.Simulator) :
  PrimFloat.eqb (Double.rate self) 0 = false ->
  (exists after : Double.Simulator,
      Double.update_state self = Ok after /\
      Double.mission_time after
      = (Double.mission_time self + 1.0 / Double.rate self)%float /\
      Double.orbit_phase after = (Double.orbit_phase self + 0.01)%float /\
      Double.thermal_cycle after = (Double.thermal_cycle self + 0.05)%float /\
      Double.host after = Double.host self /\
      Double.port after = Double.port self /\
      Double.rate after = Double.rate self /\
      Double.running after = Double.running self /\
      Double.socket after = Double.socket self /\
      Double.baseline after = Double.baseline self) /\
  (forall n : nat,
      exists a : Double.Simulator,
        Double.ticks n self = Ok a /\
        Double.orbit_phase a
        = Nat.iter n (fun x => (x + 0.01)%float) (Double.orbit_phase self) /\
        Double.thermal_cycle a
        = Nat.iter n (fun x => (x + 0.05)%float) (Double.thermal_cycle self)).
Proof.
  intros H. split.
  - eexists. split; [apply update_state_double, H|].
    cbn [Double.mission_time Double.orbit_phase Double.thermal_cycle Double.host
         Double.port Double.rate Double.running Double.socket Double.baseline].
    repeat split.
  - intros n. destruct (ticks_double n self H) as (a & E & _ & _ & O & T).
    exists a. auto.
Qed.

(** [update_state_rounds] on the object built for [--rate 10]. *)
Lemma update_state_rounds_witness :
  PrimFloat.eqb (Double.rate ten_hertz) 0 = false /\
  (exists after : Double.Simulator,
      Double.update_state ten_hertz = Ok after /\
      Double.mission_time after
      = (Double.mission_time ten_hertz + 1.0 / Double.rate ten_hertz)%float /\
      Double.orbit_phase after = (Double.orbit_phase ten_hertz + 0.01)%float /\
      Double.thermal_cycle after = (Double.thermal_cycle ten_hertz + 0.05)%float /\
      Double.host after = Double.host ten_hertz /\
      Double.port after = Double.port ten_hertz /\
      Double.rate after = Double.rate ten_hertz /\
      Double.running after = Double.running ten_hertz /\
      Double.socket after = Double.socket ten_hertz /\
      Double.baseline after = Double.baseline ten_hertz).
Proof.
  split; [reflexivity|].
  exact (proj1 (update_state_rounds ten_hertz eq_refl)).
Defined.

(** ** Lost frames and stop requests *)

Section FailureFacts.
Local Open Scope R_scope.

(** A lost frame prints exactly its error line and sends nothing. *)
Lemma frame_failure_effects (self : Simulator) (ok : bool) (d : TelemetrySample)
      (err : message) :
  frame_failure self ok d err ->
  _send_telemetry self ok d = mkEffects [] [err] None.
Proof.
  intros [H | payload e H S]; rewrite _pack_telemetry_spec in H;
    rewrite _send_telemetry_spec; destruct (sample_fits d); try discriminate H.
  - reflexivity.
  - cbn [fst] in H. injection H as <-. rewrite S. reflexivity.
Qed.

(** From the send statement to the test of the next tick. *)
Lemma run_from_send (m : Machine) (st : R) (d : TelemetrySample)
      (i4 i5 i6 i7 i8 : step_input) :
  ctl m = AtSend st d ->
  running (sim m) = true ->
  rate (sim m) <> 0 ->
  quiet i4 -> quiet i5 -> quiet i6 -> quiet i7 -> quiet i8 ->
  exists (self' : Simulator) (t' : R),
    update_state (sim m) = Ok self' /\
    run [i4; i5; i6; i7; i8] m =
    mkMachine self' (rng m) t'
              (wire m ++ sent (_send_telemetry (sim m) (net_ok i4) d))
              (console m ++ printed (_send_telemetry (sim m) (net_ok i4) d)
                       ++ [_print_status self'])
              AtStartTime.
Proof.
  intros Hc Hr Hrate Q4 Q5 Q6 Q7 Q8.
  destruct m as [self r t w c p]. cbn [ctl sim rng wire console] in *. subst p.
  eexists. eexists. split; [apply update_state_ok, Hrate|].
  cbn [run]. rewrite !step_quiet by assumption.
  unfold exec at 5. cbn [ctl sim rng now wire console].
  rewrite _send_telemetry_raises_nothing.
  unfold exec at 4. cbn [ctl sim rng now wire console].
  rewrite (update_state_ok _ Hrate).
  unfold exec at 3. cbn [ctl sim rng now wire console].
  unfold exec at 2. cbn [ctl sim rng now wire console].
  rewrite sleep_time_ok by exact Hrate.
  unfold exec. cbn [ctl sim rng now wire console].
  change (running (advanced self)) with (running self). rewrite Hr.
  rewrite <- app_assoc. reflexivity.
Qed.
(** The one sleep of the tick is asked for once the state has advanced. *)
Lemma sleeps_from_send (m : Machine) (st : R) (d : TelemetrySample)
      (i4 i5 i6 i7 i8 : step_input) :
  ctl m = AtSend st d ->
  rate (sim m) <> 0 ->
  quiet i4 -> quiet i5 -> quiet i6 -> quiet i7 -> quiet i8 ->
  exists dur : R, sleeps [i4; i5; i6; i7; i8] m = [dur].
Proof.
  intros Hc Hrate Q4 Q5 Q6 Q7 Q8.
  cbn [sleeps].
  rewrite (sleep_request_elsewhere i4 m) by (rewrite Hc; discriminate).
  rewrite (step_quiet i4 m Q4), (exec_at_send i4 m st d Hc).
  rewrite sleep_request_elsewhere by (cbn [ctl]; discriminate).
  rewrite (step_quiet i5 _ Q5).
  rewrite exec_at_update with (st := st); [|reflexivity|exact Hrate].
  cbn [sim rng now wire console].
  rewrite sleep_request_elsewhere by (cbn [ctl]; discriminate).
  rewrite (step_quiet i6 _ Q6).
  rewrite exec_at_status with (st := st); [|reflexivity].
  cbn [sim rng now wire console].
  rewrite sleep_request_at_sleep with (st := st); [|exact Q7|reflexivity|exact Hrate].
  rewrite (step_quiet i7 _ Q7).
  rewrite exec_at_sleep with (st := st); [|reflexivity|exact Hrate].
  rewrite sleep_request_elsewhere by (cbn [ctl]; discriminate).
  eexists. reflexivity.
Qed.

Lemma default_rate_accepted : rate_accepted started_sim.
Proof.
  unfold rate_accepted, SLEEP_MAX. cbn [started_sim rate]. unfold DEFAULT_RATE.
  split; [lra|]. replace (1.0 / 1.0) with 1 by lra. rewrite Rabs_R1. lra.
Qed.

Lemma quiet_input_forward : forward quiet_input.
Proof. unfold forward. cbn [quiet_input dt]. lra. Qed.

Lemma repeat_forward (n : nat) : Forall forward (repeat quiet_input n).
Proof. induction n; constructor; [exact quiet_input_forward|assumption]. Qed.

Lemma lossy_inputs_forward : Forall forward lossy_inputs.
Proof.
  unfold lossy_inputs. repeat constructor; unfold forward;
    cbn [refusing_input quiet_input dt]; lra.
Qed.
End FailureFacts.

(** C8: a tick whose frame is lost, whether packing failed or the send
    failed, prints the corresponding error line and goes on.  Nothing is put
    on the wire; the state is advanced as on any tick ([mission_time] by
    [1.0 / rate], [orbit_phase] by 0.01, [thermal_cycle] by 0.05, lines
    85-87); the simulator is still running with its socket as it was; the
    one sleep the tick asks for is a duration [time.sleep] accepts; and the
    loop has entered the next tick.  The rate is one whose period
    [time.sleep] accepts and the clock does not run backwards, as on any
    tick that goes on. *)
Theorem lost_frame_not_fatal (m : Machine) (st : R) (d : TelemetrySample)
        (err : message) (inputs : list step_input) :
  ctl m = AtSend st d ->
  running (sim m) = true ->
  rate_accepted (sim m) ->
  (st <= now m)%R ->
  List.length inputs = 5%nat ->
  Forall quiet inputs ->
  Forall forward inputs ->
  frame_failure (sim m) (net_ok (hd quiet_input inputs)) d err ->
  let m' := run inputs m in
  ctl m' = AtStartTime /\
  update_state (sim m) = Ok (sim m') /\
  sim m' = advanced (sim m) /\
  mission_time (sim m') = (mission_time (sim m) + 1.0 / rate (sim m))%R /\
  orbit_phase (sim m') = (orbit_phase (sim m) + 0.01)%R /\
  thermal_cycle (sim m') = (thermal_cycle (sim m) + 0.05)%R /\
  running (sim m') = true /\
  socket (sim m') = socket (sim m) /\
  wire m' = wire m /\
  console m' = console m ++ [err; _print_status (sim m')] /\
  exists dur : R, sleeps inputs m = [dur] /\ sleep_accepted dur.
Proof.
  intros Hc Hr Hacc Hst Hlen Hq Hfw Hf.
  assert (Hsl : Forall sleep_accepted (sleeps inputs m)).
  { apply run_sleeps_accepted; try assumption. unfold clock_ok. rewrite Hc. exact Hst. }
  destruct Hacc as [Hrate _].
  do 5 (destruct inputs as [|? inputs]; [discriminate Hlen|]).
  destruct inputs; [|discriminate Hlen].
  clear Hfw.
  repeat match goal with
         | H : Forall quiet (_ :: _) |- _ => apply Forall_cons_iff in H; destruct H as [? H]
         end.
  cbn [hd] in Hf. cbv zeta.
  match goal with
  | |- ctl (run [?a; ?b; ?c; ?e; ?f] m) = _ /\ _ =>
      destruct (sleeps_from_send m st d a b c e f) as (dur & Hd); try assumption;
      destruct (run_from_send m st d a b c e f) as (self' & t' & Hu & ->);
        try assumption
  end.
  rewrite Hd in Hsl |- *. apply Forall_cons_iff in Hsl as [Hdur _].
  rewrite (frame_failure_effects _ _ _ _ Hf).
  cbn [ctl sim wire console sent printed app].
  pose proof (update_state_keeps _ _ Hu) as [Hsock Hrun].
  rewrite (update_state_ok _ Hrate) in Hu. injection Hu as <-.
  rewrite app_nil_r. rewrite (update_state_ok _ Hrate).
  cbn [advanced mission_time orbit_phase thermal_cycle running socket] in *.
  repeat split; try reflexivity; try assumption.
  exists dur. split; [reflexivity|exact Hdur].
Qed.

Section FailureExamples.
Lemma zero_sample_refused :
  frame_failure started_sim false zero_sample MsgSendError.
Proof.
  apply TransmissionFailure with (payload := payload_of zero_sample) (e := OSError);
    reflexivity.
Qed.

Lemma overflow_sample_unpackable :
  frame_failure started_sim true overflow_sample MsgPackError.
Proof. apply EncodingFailure. reflexivity. Qed.

Lemma sending_clock (d : TelemetrySample) : (0 <= now (sending d))%R.
Proof. cbn [sending now]. apply Rle_refl. Qed.
End FailureExamples.

(** [lost_frame_not_fatal] at a tick during which the network is down, and
    at a tick whose sample cannot be packed. *)
Lemma lost_frame_not_fatal_witness :
  (let m := sending zero_sample in
   let m' := run lossy_inputs m in
   ctl m = AtSend 0%R zero_sample /\
   running (sim m) = true /\
   rate_accepted (sim m) /\
   (0 <= now m)%R /\
   List.length lossy_inputs = 5%nat /\
   Forall quiet lossy_inputs /\
   Forall forward lossy_inputs /\
   frame_failure (sim m) (net_ok (hd quiet_input lossy_inputs)) zero_sample MsgSendError /\
   ctl m' = AtStartTime /\
   update_state (sim m) = Ok (sim m') /\
   sim m' = advanced (sim m) /\
   mission_time (sim m') = (mission_time (sim m) + 1.0 / rate (sim m))%R /\
   orbit_phase (sim m') = (orbit_phase (sim m) + 0.01)%R /\
   thermal_cycle (sim m') = (thermal_cycle (sim m) + 0.05)%R /\
   running (sim m') = true /\
   socket (sim m') = socket (sim m) /\
   wire m' = wire m /\
   console m' = console m ++ [MsgSendError; _print_status (sim m')] /\
   exists dur : R, sleeps lossy_inputs m = [dur] /\ sleep_accepted dur) /\
  (let m := sending overflow_sample in
   let m' := run (repeat quiet_input 5) m in
   frame_failure (sim m) (net_ok (hd quiet_input (repeat quiet_input 5)))
                 overflow_sample MsgPackError /\
   ctl m' = AtStartTime /\
   update_state (sim m) = Ok (sim m') /\
   sim m' = advanced (sim m) /\
   mission_time (sim m') = (mission_time (sim m) + 1.0 / rate (sim m))%R /\
   orbit_phase (sim m') = (orbit_phase (sim m) + 0.01)%R /\
   thermal_cycle (sim m') = (thermal_cycle (sim m) + 0.05)%R /\
   running (sim m') = true /\
   socket (sim m') = socket (sim m) /\
   wire m' = wire m /\
   console m' = console m ++ [MsgPackError; _print_status (sim m')] /\
   exists dur : R, sleeps (repeat quiet_input 5) m = [dur] /\ sleep_accepted dur).
Proof.
  cbv zeta.
  assert (Hq : Forall quiet lossy_inputs) by (repeat constructor).
  split.
  - split; [reflexivity|]. split; [reflexivity|].
    split; [exact default_rate_accepted|]. split; [exact (sending_clock zero_sample)|].
    split; [reflexivity|].
    split; [exact Hq|]. split; [exact lossy_inputs_forward|].
    split; [exact zero_sample_refused|].
    exact (lost_frame_not_fatal (sending zero_sample) 0%R zero_sample MsgSendError
                                lossy_inputs eq_refl eq_refl default_rate_accepted
                                (sending_clock zero_sample)
                                eq_refl Hq lossy_inputs_forward zero_sample_refused).
  - split; [exact overflow_sample_unpackable|].
    exact (lost_frame_not_fatal (sending overflow_sample) 0%R overflow_sample
                                MsgPackError (repeat quiet_input 5) eq_refl eq_refl
                                default_rate_accepted (sending_clock overflow_sample)
                                eq_refl (repeat_quiet 5) (repeat_forward 5)
                                overflow_sample_unpackable).
Defined.

(** C9: once a stop request (Ctrl+C or a call of [stop]) has arrived
    between a tick's send and the end of its sleep, no datagram is ever
    added to the wire again, whatever happens next; [start] returns within
    five further statements, and when it has, the socket is closed. *)
Theorem stop_request_halts_transmission (m : Machine) (r : stop_request)
        (i : step_input) (inputs : list step_input) :
  after_send (ctl m) = true ->
  stop_req i = Some r ->
  let m' := run (i :: inputs) m in
  wire m' = wire m /\
  (terminal (ctl m') = true -> socket (sim m') <> Some SockOpen) /\
  (Forall quiet inputs -> (5 <= List.length inputs)%nat ->
   terminal (ctl m') = true /\
   (socket (sim m) <> None -> socket (sim m') = Some SockClosed)).
Proof.
  intros Ha Hr. cbv zeta. cbn [run].
  assert (L : in_loop (ctl m) = true) by (destruct (ctl m); try discriminate Ha; reflexivity).
  destruct (request_stops r i m L Hr) as (Hs & Hw & Hn).
  destruct (run_stopping inputs _ Hs) as [Hs' Hw'].
  assert (Closed : terminal (ctl (run inputs (step i m))) = true ->
                   socket (sim (run inputs (step i m))) <> Some SockOpen).
  { unfold stopping in Hs'. destruct (ctl (run inputs (step i m)));
      try discriminate; intros _; exact Hs'. }
  split; [congruence|]. split; [exact Closed|].
  intros Hq Hlen.
  assert (T : terminal (ctl (run inputs (step i m))) = true).
  { apply run_stopping_terminates; try assumption.
    destruct (ctl m); try discriminate Ha; cbn [remaining] in Hn; lia. }
  split; [exact T|]. intros Hsome.
  pose proof (Closed T) as Hc.
  pose proof (run_keeps_socket inputs _ (step_keeps_socket i m Hsome)) as Hk.
  destruct (socket (sim (run inputs (step i m)))) as [[|]|]; congruence.
Qed.

(** [stop_request_halts_transmission] for both kinds of request, arriving
    right after a send. *)
Lemma stop_request_halts_transmission_witness :
  let after_ctrl_c := run (ctrl_c_input :: repeat quiet_input 5) mid_tick in
  let after_stop := run (stop_call_input :: repeat quiet_input 5) mid_tick in
  after_send (ctl mid_tick) = true /\
  stop_req ctrl_c_input = Some CtrlC /\
  stop_req stop_call_input = Some StopCall /\
  wire after_ctrl_c = wire mid_tick /\
  terminal (ctl after_ctrl_c) = true /\
  socket (sim after_ctrl_c) = Some SockClosed /\
  wire after_stop = wire mid_tick /\
  terminal (ctl after_stop) = true /\
  socket (sim after_stop) = Some SockClosed.
Proof.
  cbv zeta.
  assert (Hsock : socket (sim mid_tick) <> None) by discriminate.
  pose proof (stop_request_halts_transmission mid_tick CtrlC ctrl_c_input
                (repeat quiet_input 5) eq_refl eq_refl) as (W1 & _ & T1).
  pose proof (stop_request_halts_transmission mid_tick StopCall stop_call_input
                (repeat quiet_input 5) eq_refl eq_refl) as (W2 & _ & T2).
  destruct (T1 (repeat_quiet 5) (le_n 5)) as [A1 B1].
  destruct (T2 (repeat_quiet 5) (le_n 5)) as [A2 B2].
  repeat split; auto.
Defined.

(** * Further properties of the code *)

(** ** The payload determines the sample *)

Section ReadBackFacts.

(** Reading an accepted sample's frame at the offsets of the layout table
    gives the fields back. *)
Lemma payload_read_back (d : TelemetrySample) :
  sample_fits d = true ->
  Forall (fun row => let '(off, ty, get) := row in
                     read_field ([x12; x06] ++ payload_of d) off ty = get d)
         wire_table.
Proof.
  intros Hfit. apply within_format_fits in Hfit.
  unfold within_format, wire_table in Hfit. split_ranges.
  unfold wire_table, payload_of, telemetry_codes, telemetry_args.
  cbn [Struct.encode_all Struct.encode_one Struct.size_of Struct.as_int
       Struct.truthy Struct.le_bytes app].
  repeat constructor;
    unfold read_field, slice;
    cbn [width firstn skipn];
    read_back.
Qed.

Lemma b2z_injective (a b : bool) : Z.b2z a = Z.b2z b -> a = b.
Proof. destruct a, b; cbn; congruence. Qed.

Lemma fields_determine_sample (d1 d2 : TelemetrySample) :
  Forall (fun row : nat * wire_type * (TelemetrySample -> Z) =>
            let '(_, _, get) := row in get d1 = get d2) wire_table ->
  d1 = d2.
Proof.
  unfold wire_table. intros H.
  repeat match goal with
         | H : Forall _ (_ :: _) |- _ => inversion_clear H
         | H : Forall _ [] |- _ => clear H
         end.
  destruct d1, d2. cbn in *.
  repeat match goal with
         | H : Z.b2z _ = Z.b2z _ |- _ => apply b2z_injective in H
         end.
  subst. reflexivity.
Qed.
End ReadBackFacts.

(** X1: [_pack_telemetry] loses nothing: two samples that pack to the same
    payload are the same sample. *)
Theorem pack_telemetry_injective (d1 d2 : TelemetrySample) (payload : bytes) :
  fst (_pack_telemetry d1) = Some payload ->
  fst (_pack_telemetry d2) = Some payload ->
  d1 = d2.
Proof.
  rewrite !_pack_telemetry_spec. intros H1 H2.
  destruct (sample_fits d1) eqn:F1; [|discriminate H1].
  destruct (sample_fits d2) eqn:F2; [|discriminate H2].
  cbn [fst] in H1, H2. injection H1 as E1. injection H2 as E2.
  pose proof (payload_read_back d1 F1) as R1.
  pose proof (payload_read_back d2 F2) as R2.
  rewrite E1 in R1. rewrite E2 in R2.
  apply fields_determine_sample.
  rewrite Forall_forall in *. intros [[off ty] get] Hin.
  specialize (R1 _ Hin). specialize (R2 _ Hin). cbn in R1, R2. congruence.
Qed.

(** [pack_telemetry_injective] at the documented example sample. *)
Lemma pack_telemetry_injective_witness :
  fst (_pack_telemetry gyro100_sample) = Some (payload_of gyro100_sample) /\
  gyro100_sample = gyro100_sample.
Proof.
  assert (H : fst (_pack_telemetry gyro100_sample) = Some (payload_of gyro100_sample))
    by reflexivity.
  split; [exact H|].
  exact (pack_telemetry_injective gyro100_sample gyro100_sample
                                  (payload_of gyro100_sample) H H).
Defined.

(** ** Sending without a usable socket *)

(** X2: when the socket is missing or closed, or the network refuses the
    datagram, [_send_telemetry] transmits nothing and raises nothing; for a
    sample the encoder accepts it prints the send error and nothing else. *)
Theorem send_failure_is_contained (self : Simulator) (ok : bool) (d : TelemetrySample) :
  socket self <> Some SockOpen \/ ok = false ->
  sent (_send_telemetry self ok d) = [] /\
  raised (_send_telemetry self ok d) = None /\
  (within_format d -> printed (_send_telemetry self ok d) = [MsgSendError]).
Proof.
  intros H. split; [|split; [apply _send_telemetry_raises_nothing|]].
  - destruct (sent (_send_telemetry self ok d)) as [|dg l] eqn:E; [reflexivity|].
    destruct (_send_telemetry_sent self ok d dg) as (_ & Hs & Hok & _).
    + rewrite E. left. reflexivity.
    + destruct H; congruence.
  - intros Hw. apply within_format_fits in Hw.
    rewrite _send_telemetry_spec, Hw.
    destruct (sendto (socket self) ok _ _) as [out|e] eqn:E; [|reflexivity].
    apply sendto_out in E as (Hs & Hok & _). destruct H; congruence.
Qed.

(** [send_failure_is_contained] on an object that was never started. *)
Lemma send_failure_is_contained_witness :
  (socket fresh_sim <> Some SockOpen \/ true = false) /\
  within_format zero_sample /\
  sent (_send_telemetry fresh_sim true zero_sample) = [] /\
  raised (_send_telemetry fresh_sim true zero_sample) = None /\
  printed (_send_telemetry fresh_sim true zero_sample) = [MsgSendError].
Proof.
  assert (H : socket fresh_sim <> Some SockOpen \/ true = false)
    by (left; discriminate).
  assert (W : within_format zero_sample) by (apply within_format_fits; reflexivity).
  pose proof (send_failure_is_contained fresh_sim true zero_sample H) as (A & B & C).
  split; [exact H|]. split; [exact W|]. split; [exact A|]. split; [exact B|].
  exact (C W).
Defined.

(** ** The wire only grows, and only toward the configured endpoint *)

Section EndpointFacts.

Lemma stop_keeps_endpoint (self : Simulator) :
  host (fst (stop self)) = host self /\ port (fst (stop self)) = port self.
Proof. split; reflexivity. Qed.

Lemma update_state_keeps_endpoint (self self' : Simulator) :
  update_state self = Ok self' ->
  host self' = host self /\ port self' = port self.
Proof.
  unfold update_state. destruct (Req_dec_T _ _); [discriminate|].
  intros [= <-]. split; reflexivity.
Qed.

Lemma exec_keeps_endpoint (i : step_input) (m : Machine) :
  host (sim (exec i m)) = host (sim m) /\ port (sim (exec i m)) = port (sim m).
Proof.
  unfold exec. destruct (ctl m);
    try destruct (_generate_telemetry (sim m) (rng m));
    try (destruct (update_state (sim m)) as [self'|err] eqn:E;
         [apply update_state_keeps_endpoint in E|]);
    try destruct (sleep_time (sim m) _ _);
    try destruct (stop (sim m)) eqn:S;
    cbn [sim host port]; auto.
  all: pose proof (stop_keeps_endpoint (sim m)) as K; rewrite S in K; exact K.
Qed.

Lemma step_keeps_endpoint (i : step_input) (m : Machine) :
  host (sim (step i m)) = host (sim m) /\ port (sim (step i m)) = port (sim m).
Proof.
  unfold step. destruct (stop_req i) as [[|]|]; try apply exec_keeps_endpoint.
  - destruct (in_loop (ctl m)); [split; reflexivity|].
    destruct (ctl m); try apply exec_keeps_endpoint; split; reflexivity.
  - split; reflexivity.
Qed.

Lemma _send_telemetry_one (self : Simulator) (ok : bool) (d : TelemetrySample) :
  (List.length (sent (_send_telemetry self ok d)) <= 1)%nat /\
  Forall (fun dg : datagram => snd dg = (host self, port self))
         (sent (_send_telemetry self ok d)).
Proof.
  rewrite _send_telemetry_spec. destruct (sample_fits d); [|cbn; auto].
  destruct (sendto _ _ _ _) as [out|e] eqn:E; [|cbn; auto].
  apply sendto_out in E as (_ & _ & ->). cbn. auto.
Qed.
End EndpointFacts.

(** X3: a run never removes or reorders what is on the wire; it appends at
    most one datagram per statement executed, and every datagram it appends
    is addressed to the host and port the object was configured with. *)
Theorem wire_grows_toward_endpoint (inputs : list step_input) (m : Machine) :
  exists new : list datagram,
    wire (run inputs m) = wire m ++ new /\
    (List.length new <= List.length inputs)%nat /\
    Forall (fun dg : datagram => snd dg = (host (sim m), port (sim m))) new.
Proof.
  revert m. induction inputs as [|i rest IH]; intros m.
  - exists []. cbn. rewrite app_nil_r. auto.
  - cbn [run]. destruct (IH (step i m)) as (new & Hw & Hl & Hd).
    destruct (step_keeps_endpoint i m) as [Hh Hp]. rewrite Hh, Hp in Hd.
    destruct (step_wire i m) as [E | (st & d & _ & E)]; rewrite E in Hw.
    + exists new. cbn [List.length]. auto with arith.
    + destruct (_send_telemetry_one (sim m) (net_ok i) d) as [L1 D1].
      exists (sent (_send_telemetry (sim m) (net_ok i) d) ++ new).
      rewrite app_assoc. split; [exact Hw|]. split.
      * rewrite length_app. cbn [List.length]. lia.
      * apply Forall_app. auto.
Qed.

(** ** The loop runs until it is stopped *)

Section LoopingFacts.
Local Open Scope R_scope.

Lemma exec_keeps_looping (i : step_input) (m : Machine) :
  in_loop (ctl m) = true -> running (sim m) = true -> rate (sim m) <> 0 ->
  in_loop (ctl (exec i m)) = true /\ running (sim (exec i m)) = true /\
  rate (sim (exec i m)) = rate (sim m).
Proof.
  intros L Hr Hrate. unfold exec.
  destruct (ctl m); try discriminate L; cbn [ctl sim].
  - rewrite Hr. auto.
  - auto.
  - destruct (_generate_telemetry (sim m) (rng m)). cbn. auto.
  - rewrite _send_telemetry_raises_nothing. auto.
  - rewrite (update_state_ok _ Hrate). cbn. auto.
  - auto.
  - rewrite (sleep_time_ok _ _ _ Hrate). cbn. auto.
Qed.
End LoopingFacts.

Section ReturnFacts.
Local Open Scope R_scope.

Lemma update_state_raises (self : Simulator) (e : exn) :
  update_state self = Raise e -> e = ZeroDivisionError.
Proof.
  unfold update_state. destruct (Req_dec_T _ _); [|discriminate].
  intros [= <-]. reflexivity.
Qed.

Lemma sleep_time_raises (self : Simulator) (st t : R) (e : exn) :
  sleep_time self st t = Raise e -> e = ZeroDivisionError.
Proof.
  unfold sleep_time. destruct (Req_dec_T _ _); [|discriminate].
  intros [= <-]. reflexivity.
Qed.

(** Left alone, the loop goes on or fails; it does not return. *)
Lemma exec_looping_or_failing (i : step_input) (m : Machine) :
  looping_or_failing m -> looping_or_failing (exec i m).
Proof.
  unfold looping_or_failing. intros H.
  destruct m as [self r t w c p]. cbn [ctl sim] in H.
  unfold exec. cbn [ctl sim rng now wire console].
  destruct p; try contradiction; cbn [ctl sim].
  - rewrite H. reflexivity.
  - exact H.
  - destruct (_generate_telemetry self r). exact H.
  - rewrite _send_telemetry_raises_nothing. exact H.
  - destruct (update_state self) as [self'|e] eqn:E; cbn [ctl sim].
    + apply update_state_keeps in E as [_ ->]. exact H.
    + apply update_state_raises in E. subst e. exact I.
  - exact H.
  - destruct (sleep_time self _ _) as [d|e] eqn:E; cbn [ctl sim].
    + exact H.
    + apply sleep_time_raises in E. subst e. exact I.
  - destruct pending; [exact I|contradiction].
  - exact I.
Qed.

Lemma run_looping_or_failing (inputs : list step_input) (m : Machine) :
  Forall quiet inputs -> looping_or_failing m ->
  looping_or_failing (run inputs m).
Proof.
  revert m. induction inputs as [|i rest IH]; intros m Hq H; [exact H|].
  apply Forall_cons_iff in Hq as [Hi Hq]. cbn [run].
  rewrite step_quiet by exact Hi. apply IH; [exact Hq|].
  apply exec_looping_or_failing, H.
Qed.

Lemma run_keeps_looping (inputs : list step_input) (m : Machine) :
  in_loop (ctl m) = true -> running (sim m) = true -> rate (sim m) <> 0 ->
  Forall quiet inputs ->
  in_loop (ctl (run inputs m)) = true /\ running (sim (run inputs m)) = true.
Proof.
  revert m. induction inputs as [|i rest IH]; intros m L Hr Hrate Hq.
  - cbn [run]. auto.
  - apply Forall_cons_iff in Hq as [Hi Hq]. cbn [run].
    rewrite step_quiet by exact Hi.
    destruct (exec_keeps_looping i m L Hr Hrate) as (L' & Hr' & Hrate').
    apply IH; try assumption. rewrite Hrate'. exact Hrate.
Qed.

Lemma first_tick_clock : clock_ok first_tick.
Proof. exact I. Qed.
End ReturnFacts.

(** X8: without a stop request [start] never returns.  From any point
    inside [_simulation_loop] with [running] set, however many statements
    run and whatever the encoder and the network do, control reaches neither
    the [except KeyboardInterrupt] clause nor a normal return: the loop goes
    on, or an exception propagates (the division by a zero rate; in the
    program also a sleep that [time.sleep] refuses).  For a rate whose
    period [time.sleep] accepts and a clock that does not run backwards,
    every sleep asked for is accepted, control stays inside the loop and
    [running] stays set. *)
Theorem start_never_returns_unasked (inputs : list step_input) (m : Machine) :
  in_loop (ctl m) = true ->
  running (sim m) = true ->
  Forall quiet inputs ->
  let m' := run inputs m in
  ctl m' <> Returned /\
  ctl m' <> AtExcept /\
  ctl m' <> AtFinally None /\
  (in_loop (ctl m') = true -> running (sim m') = true) /\
  (rate_accepted (sim m) -> clock_ok m -> Forall forward inputs ->
   Forall sleep_accepted (sleeps inputs m) /\
   in_loop (ctl m') = true /\ running (sim m') = true).
Proof.
  intros L Hr Hq. cbv zeta.
  assert (H0 : looping_or_failing m).
  { unfold looping_or_failing. destruct (ctl m); try discriminate L; exact Hr. }
  pose proof (run_looping_or_failing inputs m Hq H0) as H.
  unfold looping_or_failing in H.
  split; [|split; [|split; [|split]]].
  - intros E. rewrite E in H. exact H.
  - intros E. rewrite E in H. exact H.
  - intros E. rewrite E in H. exact H.
  - intros L'. destruct (ctl (run inputs m)); try discriminate L'; exact H.
  - intros Hacc Hc Hf. split; [apply run_sleeps_accepted; assumption|].
    destruct Hacc as [Hrate _]. apply run_keeps_looping; assumption.
Qed.

(** [start_never_returns_unasked] over the first hundred statements at the
    default rate. *)
Lemma start_never_returns_unasked_witness :
  let m' := run (repeat quiet_input 100) first_tick in
  in_loop (ctl first_tick) = true /\
  running (sim first_tick) = true /\
  Forall quiet (repeat quiet_input 100) /\
  ctl m' <> Returned /\
  ctl m' <> AtExcept /\
  ctl m' <> AtFinally None /\
  Forall sleep_accepted (sleeps (repeat quiet_input 100) first_tick) /\
  in_loop (ctl m') = true /\ running (sim m') = true.
Proof.
  cbv zeta.
  pose proof (start_never_returns_unasked (repeat quiet_input 100) first_tick eq_refl
                eq_refl (repeat_quiet 100)) as (A & B & C & _ & D).
  split; [reflexivity|]. split; [reflexivity|]. split; [exact (repeat_quiet 100)|].
  split; [exact A|]. split; [exact B|]. split; [exact C|].
  exact (D default_rate_accepted first_tick_clock (repeat_forward 100)).
Defined.

(** ** [start] releases the socket *)

Section ReleaseFacts.

Lemma unwind_released (e : exn) (m : Machine) :
  ctl m = unwind e -> released m.
Proof. unfold released. intros ->. destruct e; exact I. Qed.

Lemma exec_released (i : step_input) (m : Machine) :
  released m -> released (exec i m).
Proof.
  intros H. unfold exec. destruct (ctl m) eqn:E.
  - exact I.
  - unfold released. cbn [ctl]. destruct (running (sim m)); exact I.
  - exact I.
  - destruct (_generate_telemetry (sim m) (rng m)). exact I.
  - unfold released. cbn [ctl]. rewrite _send_telemetry_raises_nothing. exact I.
  - destruct (update_state (sim m)) as [self'|e]; [exact I|].
    apply (unwind_released e). reflexivity.
  - exact I.
  - destruct (sleep_time (sim m) _ _) as [d|e]; [exact I|].
    apply (unwind_released e). reflexivity.
  - exact I.
  - pose proof (stop_closes (sim m)) as C. destruct (stop (sim m)) as [self' out].
    cbn [fst] in C. unfold released. cbn [ctl sim]. destruct pending; exact C.
  - exact H.
  - exact H.
Qed.

Lemma step_released (i : step_input) (m : Machine) :
  released m -> released (step i m).
Proof.
  intros H. pose proof (exec_released i m H) as Hexec.
  unfold step. destruct (stop_req i) as [[|]|]; try exact Hexec.
  - destruct (in_loop (ctl m)) eqn:L; [exact I|].
    destruct (ctl m) eqn:E; try exact Hexec.
    unfold released in *. rewrite E in H. cbn [ctl sim]. exact H.
  - pose proof (stop_closes (sim m)) as C. destruct (stop (sim m)) as [self' out].
    cbn [fst] in C. unfold released in *. cbn [ctl sim].
    destruct (ctl m); auto.
Qed.

Lemma run_released (inputs : list step_input) (m : Machine) :
  released m -> released (run inputs m).
Proof.
  revert m. induction inputs as [|i rest IH]; intros m H; [exact H|].
  cbn [run]. apply IH, step_released, H.
Qed.
End ReleaseFacts.

(** X12: the [try ... finally] of [start] releases the socket.  Once
    control has entered [_simulation_loop], however [start] then ends, by
    returning or by propagating an exception, and whatever stop requests and
    failures occurred on the way, no socket is left open and [running] is
    cleared. *)
Theorem start_releases_socket (m : Machine) (inputs : list step_input) :
  in_loop (ctl m) = true ->
  terminal (ctl (run inputs m)) = true ->
  socket (sim (run inputs m)) <> Some SockOpen /\
  running (sim (run inputs m)) = false.
Proof.
  intros L T.
  assert (R0 : released m).
  { unfold released. destruct (ctl m); try discriminate L; exact I. }
  pose proof (run_released inputs m R0) as R1. unfold released in R1.
  destruct (ctl (run inputs m)); try discriminate T; exact R1.
Qed.

(** [start_releases_socket] for a first tick interrupted by Ctrl+C. *)
Lemma start_releases_socket_witness :
  let inputs := [quiet_input; ctrl_c_input; quiet_input; quiet_input] in
  let m' := run inputs first_tick in
  in_loop (ctl first_tick) = true /\
  terminal (ctl m') = true /\
  socket (sim m') <> Some SockOpen /\ running (sim m') = false.
Proof.
  cbv zeta.
  assert (T : terminal (ctl (run [quiet_input; ctrl_c_input; quiet_input; quiet_input]
                                 first_tick)) = true) by reflexivity.
  split; [reflexivity|]. split; [exact T|].
  exact (start_releases_socket first_tick
           [quiet_input; ctrl_c_input; quiet_input; quiet_input] eq_refl T).
Defined.

(** ** A rate of zero *)

Section ZeroRateFacts.
Local Open Scope R_scope.

Lemma update_state_zero (self : Simulator) :
  rate self = 0 -> update_state self = Raise ZeroDivisionError.
Proof.
  intros H. unfold update_state.
  destruct (Req_dec_T (rate self) 0); [reflexivity|contradiction].
Qed.

Lemma zero_rate_sim_rate : rate zero_rate_sim = 0.
Proof. reflexivity. Qed.
End ZeroRateFacts.

(** X9: with a rate of zero the first tick still generates and sends its
    sample, then the state update divides by zero: [ZeroDivisionError]
    leaves [start] after six statements, the simulated time and phases never
    having moved, with [running] cleared and the socket closed on the way
    out. *)
Theorem zero_rate_ends_after_first_frame (m : Machine) (inputs : list step_input) :
  ctl m = AtWhile ->
  running (sim m) = true ->
  rate (sim m) = 0%R ->
  List.length inputs = 6%nat ->
  Forall quiet inputs ->
  let m' := run inputs m in
  let d := fst (_generate_telemetry (sim m) (rng m)) in
  ctl m' = Propagated ZeroDivisionError /\
  wire m' = wire m ++ sent (_send_telemetry (sim m) (net_ok (nth 3 inputs quiet_input)) d) /\
  mission_time (sim m') = mission_time (sim m) /\
  orbit_phase (sim m') = orbit_phase (sim m) /\
  thermal_cycle (sim m') = thermal_cycle (sim m) /\
  running (sim m') = false /\
  socket (sim m') <> Some SockOpen.
Proof.
  intros Hc Hr Hrate Hlen Hq.
  do 6 (destruct inputs as [|? inputs]; [discriminate Hlen|]).
  destruct inputs; [|discriminate Hlen].
  repeat match goal with
         | H : Forall _ (_ :: _) |- _ => apply Forall_cons_iff in H; destruct H as [? H]
         end.
  cbv zeta. cbn [nth].
  match goal with
  | |- ctl (run [?a; ?b; ?c; ?d; ?e; ?f] m) = _ /\ _ =>
      change [a; b; c; d; e; f] with ([a; b; c; d] ++ [e; f]);
        rewrite run_app, (run_past_send m a b c d) by assumption
  end.
  cbn [run].
  match goal with
  | |- ctl (step ?f (step ?e ?m4)) = _ /\ _ =>
      assert (E5 : step e m4 =
                   mkMachine (sim m) (rng m4) (now m4 + dt e)%R (wire m4) (console m4)
                             (AtFinally (Some ZeroDivisionError)))
  end.
  { rewrite step_quiet by assumption. unfold exec.
    cbn [ctl sim rng now wire console]. rewrite (update_state_zero _ Hrate).
    reflexivity. }
  rewrite E5, step_quiet by assumption.
  unfold exec. cbn [ctl sim rng now wire console].
  pose proof (stop_closes (sim m)) as [Cs Cr].
  unfold stop in *. cbn [fst ctl sim wire mission_time orbit_phase thermal_cycle
                         running socket] in *.
  auto 10.
Qed.

(** [zero_rate_ends_after_first_frame] on the object started with rate 0. *)
Lemma zero_rate_ends_after_first_frame_witness :
  let m := at_loop_test zero_rate_sim in
  let m' := run (repeat quiet_input 6) m in
  ctl m = AtWhile /\
  running (sim m) = true /\
  rate (sim m) = 0%R /\
  List.length (repeat quiet_input 6) = 6%nat /\
  Forall quiet (repeat quiet_input 6) /\
  ctl m' = Propagated ZeroDivisionError /\
  wire m' = wire m ++
            sent (_send_telemetry (sim m) (net_ok (nth 3 (repeat quiet_input 6) quiet_input))
                                  (fst (_generate_telemetry (sim m) (rng m)))) /\
  mission_time (sim m') = mission_time (sim m) /\
  orbit_phase (sim m') = orbit_phase (sim m) /\
  thermal_cycle (sim m') = thermal_cycle (sim m) /\
  running (sim m') = false /\
  socket (sim m') <> Some SockOpen.
Proof.
  cbv zeta.
  split; [reflexivity|]. split; [reflexivity|]. split; [reflexivity|].
  split; [reflexivity|]. split; [exact (repeat_quiet 6)|].
  exact (zero_rate_ends_after_first_frame (at_loop_test zero_rate_sim)
           (repeat quiet_input 6) eq_refl eq_refl eq_refl eq_refl (repeat_quiet 6)).
Defined.

(** ** Keeping the rate *)

(** X10: the duration lines 92-95 hand to [time.sleep] is never negative;
    it is zero once the tick has used up its period; as long as the clock
    has not run backwards since the tick's snapshot it is no longer than the
    period; and for a rate whose period [time.sleep] accepts it is a
    duration the call accepts. *)
Theorem sleep_request_bounded (self : Simulator) (st t : R) :
  rate self <> 0%R ->
  exists d : R,
    sleep_time self st t = Ok d /\
    (0 <= d)%R /\
    ((1.0 / rate self <= t - st)%R -> d = 0%R) /\
    ((st <= t)%R -> (d <= Rmax 0 (1.0 / rate self))%R) /\
    ((st <= t)%R -> rate_accepted self -> sleep_accepted d).
Proof.
  intros Hrate.
  destruct (sleep_time_bounds self st t Hrate) as (d & E & H0 & H1 & H2).
  exists d. split; [exact E|]. split; [exact H0|]. split; [exact H2|].
  split; [exact H1|].
  intros Ht Hacc. exact (sleep_time_accepted self st t d Hacc Ht E).
Qed.

(** [sleep_request_bounded] at the default rate, for a tick that took a
    quarter of a second. *)
Lemma sleep_request_bounded_witness :
  rate started_sim <> 0%R /\
  exists d : R,
    sleep_time started_sim 0%R 0.25%R = Ok d /\
    (0 <= d)%R /\
    (d <= Rmax 0 (1.0 / rate started_sim))%R /\
    sleep_accepted d.
Proof.
  split; [exact default_rate_nonzero|].
  destruct (sleep_request_bounded started_sim 0%R 0.25%R default_rate_nonzero)
    as (d & E & H0 & _ & H1 & H2).
  assert (Ht : (0 <= 0.25)%R) by lra.
  exists d. split; [exact E|]. split; [exact H0|].
  split; [exact (H1 Ht)|exact (H2 Ht default_rate_accepted)].
Defined.

(** ** A negative rate *)



(** ** Many ticks *)

Section ManyTicks.
Local Open Scope R_scope.


End ManyTicks.



(** ** Channels without noise *)

Section TruncationFacts.
Local Open Scope R_scope.

Lemma int_monotone (x y : R) : x <= y -> (Num.int x <= Num.int y)%Z.
Proof.
  intros H. unfold Num.int.
  destruct (Rle_dec 0 x) as [Hx|Hx], (Rle_dec 0 y) as [Hy|Hy].
  - apply Zfloor_le, H.
  - lra.
  - transitivity 0%Z.
    + assert (Zceil x <= Zceil 0)%Z by (apply Zceil_le; lra).
      replace (Zceil 0) with 0%Z in *; [assumption|].
      symmetry. apply (Zceil_eq 0). lra.
    + apply (Zfloor_lub 0), Hy.
  - apply Zceil_le, H.
Qed.

Lemma int_nonneg (x : R) : 0 <= x -> Num.int x = Zfloor x.
Proof.
  intros H. unfold Num.int.
  destruct (Rle_dec 0 x); [reflexivity|contradiction].
Qed.
End TruncationFacts.

(** X4: the channels computed without noise stay in fixed bands for every
    state and every random outcome: the three magnetometer axes, the three
    radiation intensities, and the two endstops (0 or 1). *)
Theorem noise_free_channels_bounded (self : Simulator) (r : Random.state) :
  let d := fst (_generate_telemetry self r) in
  -30000 <= mmc_mag_x d <= -20000 /\
  12000 <= mmc_mag_y d <= 18000 /\
  43000 <= mmc_mag_z d <= 47000 /\
  80 <= rdn_serial_intensity d <= 120 /\
  77 <= rdn_sen1_intensity d <= 113 /\
  83 <= rdn_sen2_intensity d <= 127 /\
  0 <= hall_endstop d <= 1 /\
  0 <= reflective_endstop d <= 1.
Proof.
  cbv zeta. rewrite _generate_telemetry_fields. cbv zeta.
  cbn [mmc_mag_x mmc_mag_y mmc_mag_z rdn_serial_intensity rdn_sen1_intensity
       rdn_sen2_intensity hall_endstop reflective_endstop].
  pose proof (SIN_bound (orbit_phase self)).
  pose proof (COS_bound (orbit_phase self)).
  pose proof (SIN_bound (orbit_phase self * 0.7)).
  pose proof (SIN_bound (orbit_phase self * 3)).
  pose proof (SIN_bound (orbit_phase self * 3 + 0.2)).
  pose proof (SIN_bound (orbit_phase self * 3 + 0.4)).
  repeat match goal with
         | |- _ <= Num.int _ <= _ => apply int_bounds; lra
         | |- _ <= (if Num.gt ?a ?b then _ else _) <= _ => destruct (Num.gt a b); lia
         | |- _ /\ _ => split
         end.
Qed.

(** ** Scenarios *)

Section ScenarioFacts.
Local Open Scope R_scope.

Lemma apply_scenario_phases (sc : scenario) (self : Simulator) :
  orbit_phase (apply_scenario sc self) = orbit_phase self /\
  thermal_cycle (apply_scenario sc self) = thermal_cycle self /\
  radiation_base (baseline (apply_scenario sc self)) = radiation_base (baseline self) /\
  accel_noise (baseline (apply_scenario sc self)) = accel_noise (baseline self).
Proof. destruct sc; repeat split. Qed.
End ScenarioFacts.

(** X5: a scenario changes noise magnitudes only.  When every Gaussian draw
    is zero, the sample generated after [main] has applied a scenario is the
    sample of the unmodified object. *)
Theorem scenario_only_scales_noise (sc : scenario) (self : Simulator)
        (r : Random.state) :
  (forall k : nat, (k < 14)%nat -> Random.next_normal r k = 0%R) ->
  fst (_generate_telemetry (apply_scenario sc self) r)
  = fst (_generate_telemetry self r).
Proof.
  intros Hz. rewrite !_generate_telemetry_fields. cbv zeta.
  unfold radiation_multiplier.
  destruct (apply_scenario_phases sc self) as (-> & -> & -> & ->).
  rewrite !Hz by lia. rewrite !Rmult_0_l. reflexivity.
Qed.

(** [scenario_only_scales_noise] for the anomaly scenario and calm draws. *)
Lemma scenario_only_scales_noise_witness :
  (forall k : nat, (k < 14)%nat -> Random.next_normal calm_draws k = 0%R) /\
  fst (_generate_telemetry (apply_scenario anomaly started_sim) calm_draws)
  = fst (_generate_telemetry started_sim calm_draws).
Proof.
  assert (H : forall k : nat, (k < 14)%nat -> Random.next_normal calm_draws k = 0%R)
    by (intros k _; reflexivity).
  split; [exact H|].
  exact (scenario_only_scales_noise anomaly started_sim calm_draws H).
Defined.

(** ** The three dose sensors *)

(** X6: the per-sensor constants order the dose readings: with a
    non-negative baseline level and the same noise on the three channels,
    sensor 1 reads no more than the serial channel, which reads no more than
    sensor 2. *)
Theorem dose_channels_ordered (self : Simulator) (r : Random.state) :
  (0 <= radiation_base (baseline self))%R ->
  Random.next_normal r 8 = Random.next_normal r 9 ->
  Random.next_normal r 9 = Random.next_normal r 10 ->
  let d := fst (_generate_telemetry self r) in
  rdn_sen1_dose d <= rdn_serial_dose d <= rdn_sen2_dose d.
Proof.
  intros Hb E1 E2. cbv zeta. rewrite _generate_telemetry_fields. cbv zeta.
  cbn [rdn_sen1_dose rdn_serial_dose rdn_sen2_dose].
  rewrite E1, E2. unfold radiation_multiplier.
  pose proof (SIN_bound (orbit_phase self * 2)) as S.
  set (b := radiation_base (baseline self)) in *.
  set (s := sin (orbit_phase self * 2)) in *.
  assert (P : (0 <= b * (1.0 + 0.3 * s))%R).
  { apply Rmult_le_pos; lra. }
  split; apply int_monotone; lra.
Qed.

(** [dose_channels_ordered] on the first tick with calm draws. *)
Lemma dose_channels_ordered_witness :
  let d := fst (_generate_telemetry started_sim calm_draws) in
  (0 <= radiation_base (baseline started_sim))%R /\
  Random.next_normal calm_draws 8 = Random.next_normal calm_draws 9 /\
  Random.next_normal calm_draws 9 = Random.next_normal calm_draws 10 /\
  rdn_sen1_dose d <= rdn_serial_dose d <= rdn_sen2_dose d.
Proof.
  cbv zeta.
  assert (H : (0 <= radiation_base (baseline started_sim))%R) by (cbn; lra).
  split; [exact H|]. split; [reflexivity|]. split; [reflexivity|].
  exact (dose_channels_ordered started_sim calm_draws H eq_refl eq_refl).
Defined.

(** ** The position encoder *)

(** X14: the position encoder never reads 255.  [int(random.uniform(0,
    255))] truncates a value strictly below 255, so for unit draws in
    [0, 1) the byte lies between 0 and 254. *)
Theorem encoder_never_reads_255 (self : Simulator) (r : Random.state) :
  (0 <= Random.next_unit r 2 < 1)%R ->
  0 <= encoder_sensor (fst (_generate_telemetry self r)) <= 254.
Proof.
  intros [H0 H1]. rewrite _generate_telemetry_fields. cbv zeta. cbn [encoder_sensor].
  set (u := Random.next_unit r 2) in *.
  assert (N : (0 <= 0 + (255 - 0) * u)%R) by lra.
  rewrite (int_nonneg _ N). split.
  - apply (Zfloor_lub 0). exact N.
  - assert (Zfloor (0 + (255 - 0) * u) < 255); [|lia].
    apply lt_IZR. pose proof (Zfloor_bound (0 + (255 - 0) * u)%R). lra.
Qed.

(** [encoder_never_reads_255] for a mid-range draw. *)
Lemma encoder_never_reads_255_witness :
  (0 <= Random.next_unit calm_draws 2 < 1)%R /\
  0 <= encoder_sensor (fst (_generate_telemetry started_sim calm_draws)) <= 254.
Proof.
  assert (H : (0 <= Random.next_unit calm_draws 2 < 1)%R)
    by (unfold Random.next_unit, calm_draws; cbn [Random.unit_draws]; lra).
  split; [exact H|].
  exact (encoder_never_reads_255 started_sim calm_draws H).
Defined.

(** ** The status line *)

Section StatusFacts.
Local Open Scope R_scope.

Lemma Zfloor_div_3600 (t : R) : Zfloor (t / 3600) = (Zfloor t / 3600)%Z.
Proof.
  apply Zfloor_eq. pose proof (Zfloor_bound t) as B.
  remember (Zfloor t) as n eqn:En. clear En.
  assert (L : (3600 * (n / 3600) <= n)%Z) by (Z.div_mod_to_equations; lia).
  assert (U : (n + 1 <= 3600 * (n / 3600) + 3600)%Z) by (Z.div_mod_to_equations; lia).
  apply IZR_le in L. apply IZR_le in U.
  rewrite mult_IZR in L. rewrite !plus_IZR, mult_IZR in U. lra.
Qed.

Lemma Zfloor_div_60 (t : R) : Zfloor (t / 60) = (Zfloor t / 60)%Z.
Proof.
  apply Zfloor_eq. pose proof (Zfloor_bound t) as B.
  remember (Zfloor t) as n eqn:En. clear En.
  assert (L : (60 * (n / 60) <= n)%Z) by (Z.div_mod_to_equations; lia).
  assert (U : (n + 1 <= 60 * (n / 60) + 60)%Z) by (Z.div_mod_to_equations; lia).
  apply IZR_le in L. apply IZR_le in U.
  rewrite mult_IZR in L. rewrite !plus_IZR, mult_IZR in U. lra.
Qed.

Lemma Zfloor_sub_multiple (t : R) (c q : Z) :
  Zfloor (t - IZR c * IZR q) = (Zfloor t - c * q)%Z.
Proof.
  replace (t - IZR c * IZR q) with (t + IZR (- (c * q))).
  - rewrite Zfloor_addz. lia.
  - rewrite opp_IZR, mult_IZR. lra.
Qed.

Lemma Zfloor_hour_in : Zfloor 3725.5 = 3725%Z.
Proof. apply Zfloor_eq. lra. Qed.

Lemma hour_in_range : 0 <= mission_time hour_in_sim < 9007199254740992.
Proof. cbn [hour_in_sim with_mission_time mission_time]. lra. Qed.
End StatusFacts.

(** X11: the status line splits the mission time correctly.  For a
    mission time that is not negative (and below 2^53, where the double
    quotients and remainders of the program are exact) the hours shown are
    not negative, the minutes and seconds lie in [0, 60), and hours, minutes
    and seconds add up to the whole seconds elapsed:
    [3600 h + 60 m + s = floor (mission_time)]. *)
Theorem status_splits_mission_time (self : Simulator) :
  (0 <= mission_time self < 9007199254740992)%R ->
  exists h mi s : Z,
    _print_status self = MsgStatus h mi s (orbit_phase self) (thermal_cycle self) /\
    0 <= h /\
    0 <= mi < 60 /\
    0 <= s < 60 /\
    3600 * h + 60 * mi + s = Zfloor (mission_time self).
Proof.
  unfold _print_status, Num.floordiv, Num.fmod.
  generalize (mission_time self) as t. intros t [Ht _].
  assert (Hn : 0 <= Zfloor t) by (apply Zfloor_lub; exact Ht).
  remember (Zfloor t) as n eqn:En.
  assert (H : Num.int (IZR (Zfloor (t / 3600))) = n / 3600).
  { rewrite int_IZR, En. apply Zfloor_div_3600. }
  assert (M : Num.int (IZR (Zfloor ((t - 3600 * IZR (Zfloor (t / 3600))) / 60)))
              = (n - 3600 * (n / 3600)) / 60).
  { rewrite int_IZR, Zfloor_div_60, Zfloor_sub_multiple, Zfloor_div_3600, En.
    reflexivity. }
  assert (S : Num.int (t - 60 * IZR (Zfloor (t / 60))) = n - 60 * (n / 60)).
  { rewrite int_nonneg.
    - rewrite Zfloor_sub_multiple, Zfloor_div_60, En. reflexivity.
    - pose proof (Zfloor_bound (t / 60)). lra. }
  rewrite H, M, S. clear - Hn. do 3 eexists. split; [reflexivity|].
  Z.div_mod_to_equations. lia.
Qed.

(** [status_splits_mission_time] an hour, two minutes and five and a half
    seconds into the mission: the line shows 01:02:05. *)
Lemma status_splits_mission_time_witness :
  (0 <= mission_time hour_in_sim < 9007199254740992)%R /\
  _print_status hour_in_sim
  = MsgStatus 1 2 5 (orbit_phase hour_in_sim) (thermal_cycle hour_in_sim).
Proof.
  split; [exact hour_in_range|].
  destruct (status_splits_mission_time hour_in_sim hour_in_range)
    as (h & mi & s & E & Hh & Hm & Hs & Hsum).
  change (mission_time hour_in_sim) with 3725.5%R in Hsum.
  rewrite Zfloor_hour_in in Hsum.
  assert (h = 1) by lia. assert (mi = 2) by lia. assert (s = 5) by lia.
  subst h mi s. exact E.
Defined.

(** ** A tick that goes well *)

Section HealthyFacts.
Local Open Scope R_scope.

End HealthyFacts.


